(** * ChromeExtension-Vite-Core: the compatibility layer and the identity shim

    A shallow embedding of [src/utils/browser.ts] and
    [src/utils/identity/util.ts], together with the clean-copy-URL logic
    that the test suite [src/test/cleanCopyUrl.test.ts] exercises.

    Conventions.
    - A JavaScript promise is represented by the state it ends in
      ([Resolved], [Rejected] or, when a callback throws before settling
      it, [Pending]).
    - What the host browser answers (callbacks, [lastError], permissions,
      the URL parser) is data of the environment the function runs in.
    - Console output and vendor API calls are recorded, in order, in a
      trace of events.
    - [localStorage] is a finite map with string keys. The object
      [_webNotifications] is a finite map of the handles stored in it,
      read together with what a plain object inherits from its prototype. *)

From Stdlib Require Import ZArith Ascii String.
From stdpp Require Import base option list strings gmap pretty.

Local Open Scope string_scope.
Local Open Scope list_scope.

(** ** JavaScript values, errors and promises *)

Module Js.

(** The values whose truthiness the code tests. *)
Inductive JsVal : Type :=
| JsUndefined
| JsNull
| JsBool (b : bool)
| JsNumber (z : Z)
| JsString (s : string)
| JsObject.

Definition is_empty (s : string) : bool :=
  match s with
  | EmptyString => true
  | String _ _ => false
  end.

(** [!!v] *)
Definition truthy (v : JsVal) : bool :=
  match v with
  | JsUndefined | JsNull => false
  | JsBool b => b
  | JsNumber z => negb (Z.eqb z 0)
  | JsString s => negb (is_empty s)
  | JsObject => true
  end.

(** Truthiness of a [string | undefined] / [string | null] value. *)
Definition truthy_str (o : option string) : bool :=
  match o with
  | Some s => negb (is_empty s)
  | None => false
  end.

(** [o || d] for a [string | undefined] value. *)
Definition or_else (o : option string) (d : string) : string :=
  if truthy_str o then default d o else d.

(** [chrome.runtime.lastError]: an object with an optional message. *)
Record LastError : Type := { le_message : option string }.

(** What a promise is rejected with. *)
Inductive Reason : Type :=
| ErrorObj (message : string)          (* new Error(message) *)
| TypeErrorObj (message : string)
| ReferenceErrorObj (message : string)
| LastErrorObj (e : LastError).        (* chrome.runtime.lastError as Error *)

(** The state a promise ends in. *)
Inductive Promise (A : Type) : Type :=
| Resolved (a : A)
| Rejected (r : Reason)
| Pending.
Arguments Resolved {A} a.
Arguments Rejected {A} r.
Arguments Pending {A}.

Inductive Level : Type := LDebug | LLog | LWarn | LError.

(** [p] matches at the start of [s]. *)
Fixpoint starts_with (p s : string) : bool :=
  match p, s with
  | EmptyString, _ => true
  | String _ _, EmptyString => false
  | String a p', String b s' => if Ascii.eqb a b then starts_with p' s' else false
  end.

(** [/p/.test(s)] for a pattern [p] of literal characters: [p] occurs
    somewhere in [s]. The patterns used are ASCII, for which an
    occurrence in the UTF-8 bytes is an occurrence in the code units. *)
Fixpoint regex_literal_test (p s : string) : bool :=
  starts_with p s ||
  match s with
  | EmptyString => false
  | String _ s' => regex_literal_test p s'
  end.

(** [p] occurs in [s]. *)
Definition Occurs (p s : string) : Prop :=
  exists pre post : string, s = pre +:+ p +:+ post.

End Js.

(** ** Vendor detection ([browser.is], [browser.getBrowserName]) *)

Module Detector.
Import Js.

(** The two environment signals read: [navigator.userAgent] and
    [navigator.brave]. *)
Record Navigator : Type := {
  userAgent : string;
  brave : JsVal
}.

(** [browser.is.brave] *)
Definition is_brave (nav : Navigator) : bool := truthy (brave nav).

(** [browser.is.edge] *)
Definition is_edge (nav : Navigator) : bool :=
  regex_literal_test "Edg" (userAgent nav).

(** [browser.is.opera] *)
Definition is_opera (nav : Navigator) : bool :=
  regex_literal_test "OPR" (userAgent nav).

(** [browser.is.chrome]; [/Edg|OPR/] is the alternation of two literals. *)
Definition is_chrome (nav : Navigator) : bool :=
  regex_literal_test "Chrome" (userAgent nav)
  && negb (regex_literal_test "Edg" (userAgent nav)
           || regex_literal_test "OPR" (userAgent nav))
  && negb (truthy (brave nav)).

(** [browser.getBrowserName] *)
Definition getBrowserName (nav : Navigator) : string :=
  if is_brave nav then "Brave"
  else if is_edge nav then "Edge"
  else if is_opera nav then "Opera"
  else if is_chrome nav then "Chrome"
  else "Unknown".

(** [new Identity().isSubVendor] ([src/utils/identity/class.ts]) *)
Definition isSubVendor (nav : Navigator) : bool :=
  negb (String.eqb (getBrowserName nav) "Chrome").

End Detector.

(** ** The side panel facade ([sidePanel] in [src/utils/browser.ts]) *)

Module SidePanel.
Import Js.

(** The argument of [setOptions]. *)
Record Options : Type := {
  enabled : option bool;
  path : option string
}.

(** What the vendor offers. A method that may be missing is an [option];
    a present method answers with the state of the promise it returns. *)
Record SidePanelApi : Type := {
  sp_setOptions : option (Options -> Promise unit);
  sp_open : option (option Z -> Promise unit);       (* argument: windowId *)
  sp_getOptions : option (option Z -> Promise Options) (* argument: tabId *)
}.

Record SidebarActionApi : Type := {
  sa_setPanel : option (string -> Promise unit);
  sa_open : option (Promise unit)
}.

(** The [chrome] global, as far as the side panel code reads it. *)
Record Chrome : Type := {
  sidePanel : option SidePanelApi;
  sidebarAction : option SidebarActionApi
}.

(** Console lines carry their first argument, the literal text. *)
Inductive Event : Type :=
| Console (l : Level) (text : string)
| CallSetOptions (o : Options)
| CallOpen (windowId : option Z)
| CallGetOptions (tabId : option Z)
| CallSetPanel (panel : string)
| CallSidebarOpen.

Definition is_vendor_call (e : Event) : bool :=
  match e with
  | Console _ _ => false
  | _ => true
  end.

Definition is_console (e : Event) : bool :=
  match e with
  | Console _ _ => true
  | _ => false
  end.

(** The promise an [async] function returns, and the trace it leaves. *)
Definition Run (A : Type) : Type := (Promise A * list Event)%type.

Definition not_a_function {A} (what : string) : Run A :=
  (Rejected (TypeErrorObj (what +:+ " is not a function")), []).

(** Reading [chrome] where no such global exists. *)
Definition chrome_undefined {A} : Run A :=
  (Rejected (ReferenceErrorObj "chrome is not defined"), []).

(** [error instanceof Error] *)
Definition instanceof_Error (r : Reason) : bool :=
  match r with
  | ErrorObj _ | TypeErrorObj _ | ReferenceErrorObj _ => true
  | LastErrorObj _ => false
  end.

(** [sidePanel.isAvailable] *)
Definition isAvailable (chrome : option Chrome) : bool :=
  match chrome with
  | None => false
  | Some c => bool_decide (is_Some (sidePanel c)) || bool_decide (is_Some (sidebarAction c))
  end.

(** [sidePanel.setOptions] *)
Definition setOptions (chrome : option Chrome) (options : Options) : Run unit :=
  match chrome with
  | None => chrome_undefined
  | Some c =>
      match sidePanel c with
      | Some sp =>
          match sp_setOptions sp with
          | Some f => (f options, [CallSetOptions options])
          | None => not_a_function "chrome.sidePanel.setOptions"
          end
      | None =>
          match sidebarAction c with
          | Some sa =>
              match path options with
              | Some p =>
                  if is_empty p then (Resolved tt, [])
                  else
                    match sa_setPanel sa with
                    | Some f => (f p, [CallSetPanel p])
                    | None => not_a_function "chrome.sidebarAction.setPanel"
                    end
              | None => (Resolved tt, [])
              end
          | None =>
              (Resolved tt,
               [Console LWarn "[Browser] sidePanel API not available in this browser"])
          end
      end
  end.

(** What [open] logs when [chrome.sidePanel.open] is rejected with [r],
    before it throws [r] again. *)
Definition open_failure_log (r : Reason) : list Event :=
  Console LError "[Browser] chrome.sidePanel.open() failed:" ::
  (if instanceof_Error r
   then [Console LError "[Browser] Error message:"; Console LError "[Browser] Error stack:"]
   else []).

(** [options?.windowId], when truthy. *)
Definition truthy_windowId (options : option (option Z)) : option Z :=
  match options with
  | Some (Some w) => if Z.eqb w 0 then None else Some w
  | _ => None
  end.

(** [sidePanel.open]; [options] is [None] when the argument is omitted,
    and holds the [windowId] field otherwise. *)
Definition open (chrome : option Chrome) (options : option (option Z)) : Run unit :=
  let called := Console LLog "[Browser] sidePanel.open() called with options:" in
  match chrome with
  | None => (Resolved tt, [called; Console LError "[Browser] chrome is undefined"])
  | Some c =>
      match sidePanel c ≫= sp_open with
      | Some f =>
          let chosen := Console LLog "[Browser] Using chrome.sidePanel.open()" in
          let '(announce, arg) :=
            match truthy_windowId options with
            | Some w => (Console LLog "[Browser] Opening sidebar for window:", Some w)
            | None => (Console LLog "[Browser] Opening sidebar without window specification", None)
            end in
          let before := [called; chosen; announce; CallOpen arg] in
          match f arg with
          | Resolved _ =>
              (Resolved tt, before ++ [Console LLog "[Browser] chrome.sidePanel.open() succeeded"])
          | Rejected r => (Rejected r, before ++ open_failure_log r)
          | Pending => (Pending, before)
          end
      | None =>
          match sidebarAction c ≫= sa_open with
          | Some p =>
              (p, [called; Console LLog "[Browser] Using chrome.sidebarAction.open()"; CallSidebarOpen])
          | None =>
              (Resolved tt,
               [called; Console LWarn "[Browser] Cannot open sidebar - API not available"])
          end
      end
  end.

(** [sidePanel.getOptions]; the result [None] is JavaScript's [null].
    [options || {}] passes the [tabId] of [options] when there is one. *)
Definition getOptions (chrome : option Chrome) (options : option (option Z))
  : Run (option Options) :=
  match chrome with
  | None => chrome_undefined
  | Some c =>
      match sidePanel c ≫= sp_getOptions with
      | Some f =>
          let tabId := options ≫= id in
          (match f tabId with
           | Resolved o => Resolved (Some o)
           | Rejected r => Rejected r
           | Pending => Pending
           end, [CallGetOptions tabId])
      | None => (Resolved None, [])
      end
  end.

(** A call "logs and no-ops": its promise resolves, it wrote to the
    console, and it made no vendor API call. *)
Definition logs_and_noops {A} (r : Run A) : Prop :=
  (exists a, r.1 = Resolved a) /\
  (exists e, e ∈ r.2 /\ is_console e = true) /\
  (forall e, e ∈ r.2 -> is_vendor_call e = false).

(** A call "no-ops": its promise resolves and it made no vendor API call. *)
Definition noops {A} (r : Run A) : Prop :=
  (exists a, r.1 = Resolved a) /\
  (forall e, e ∈ r.2 -> is_vendor_call e = false).

End SidePanel.

(** ** The notifications facade ([notifications] in [src/utils/browser.ts]) *)

Module Notifications.
Import Js.

(** The fields of [chrome.notifications.NotificationOptions] the code reads. *)
Record NotificationOptions : Type := {
  title : option string;
  message : option string;
  iconUrl : option string;
  requireInteraction : option bool
}.

(** A web [Notification] object: the title and the options it was built with. *)
Record WebNotification : Type := {
  wn_title : string;
  wn_body : option string;
  wn_icon : option string;
  wn_badge : option string;
  wn_tag : string;
  wn_requireInteraction : option bool
}.

(** How [chrome.notifications.create] answers: it calls back with an
    identifier, calls back with [chrome.runtime.lastError] set, or throws. *)
Inductive CreateReply : Type :=
| CreateOk (notifId : string)
| CreateLastError (e : LastError)
| CreateThrows (r : Reason).

Inductive ClearReply : Type :=
| ClearOk (wasCleared : bool)
| ClearThrows (r : Reason).

(** The answers may change over time: they are indexed by the number of
    permission requests made so far. *)
Record ChromeNotifications : Type := {
  cn_create : option (nat -> string -> option NotificationOptions -> CreateReply);
  cn_clear : option (string -> ClearReply)
}.

Record Chrome : Type := { notifications : option ChromeNotifications }.

(** The global [Notification] of the web platform. *)
Record NotificationGlobal : Type := {
  permission : nat -> string;
  requestPermission_answer : nat -> string;
  (** [None]: the constructor returns; [Some r]: it throws [r]. *)
  construct : WebNotification -> option Reason
}.

(** How a name resolves on a prototype chain. *)
Inductive Member : Type :=
| Absent      (* not found *)
| Method      (* a writable member holding a function or object without [close] *)
| Accessor.   (* an interface attribute: it throws when read or written
                 through an object that is no [Notification] *)

Record Env : Type := {
  chrome : option Chrome;               (* [None]: [typeof chrome === "undefined"] *)
  has_window : bool;                    (* [globalThis.window !== undefined] *)
  Notification : option NotificationGlobal; (* ["Notification" in globalThis] *)
  (** what a [Notification] object and its prototypes, short of
      [Object.prototype], hold under a name *)
  notification_member : string -> Member
}.

Inductive Event : Type :=
| Console (l : Level) (text : string)
| CallCreate (id : string) (opts : option NotificationOptions)
| CallClear (id : string)
| CallRequestPermission
| NewNotification (n : WebNotification)
| CloseNotification (n : WebNotification).

(** [typeof chrome !== "undefined" && chrome.notifications] *)
Definition chrome_notifications (env : Env) : option ChromeNotifications :=
  chrome env ≫= notifications.

(** [globalThis.window !== undefined && "Notification" in globalThis] *)
Definition web_notification (env : Env) : option NotificationGlobal :=
  if has_window env then Notification env else None.

(** [notifications.checkPermission], after [round] permission requests. *)
Definition checkPermission (env : Env) (round : nat) : string :=
  match chrome_notifications env with
  | Some _ => "granted"
  | None =>
      match web_notification env with
      | Some N => permission N round
      | None => "denied"
      end
  end.

(** [notifications.requestPermission], the request number [round]. *)
Definition requestPermission (env : Env) (round : nat) : string * list Event :=
  match web_notification env with
  | Some N => (requestPermission_answer N round, [CallRequestPermission])
  | None => ("denied", [])
  end.

(** The identifier [create] works with: its first argument when that is
    a string, and [`notif-${Date.now()}`] otherwise. *)
Definition create_id (notificationId : string + NotificationOptions) (now : Z) : string :=
  match notificationId with
  | inl s => s
  | inr _ => "notif-" +:+ pretty now
  end.

Definition create_opts (notificationId : string + NotificationOptions)
    (options : option NotificationOptions) : option NotificationOptions :=
  match notificationId with
  | inl _ => options
  | inr o => Some o
  end.

(** The first step of [create]: the extension API. [inl notifId] when it
    called back without error, [inr trace] when it is missing or failed. *)
Definition chrome_attempt (env : Env) (round : nat) (id : string)
    (opts : option NotificationOptions) : string + list Event :=
  match chrome_notifications env ≫= cn_create with
  | Some f =>
      match f round id opts with
      | CreateOk notifId => inl notifId
      | CreateLastError _ | CreateThrows _ =>
          inr [CallCreate id opts;
               Console LWarn "[Browser] Chrome notifications failed, trying fallback:"]
      end
  | None => inr []
  end.

(** The web notification [create] builds from [opts]. *)
Definition web_notification_of (id : string) (o : NotificationOptions) : WebNotification :=
  {| wn_title := or_else (title o) "Notification";
     wn_body := message o;
     wn_icon := iconUrl o;
     wn_badge := iconUrl o;
     wn_tag := id;
     wn_requireInteraction := requireInteraction o |}.

Definition unavailable : Event :=
  Console LWarn "[Browser] Notifications not available in this environment".

(** *** The object [this._webNotifications]

    The object is created as [{}], so besides the handles stored in it
    it has what it inherits from [Object.prototype]. An assignment to its
    key [__proto__] stores no property but replaces its prototype; the
    entry of the map under ["__proto__"] stands for that prototype. *)

(** [this._webNotifications?.[notificationId]], as far as the map goes. *)
Definition web_handle (store : option (gmap string WebNotification)) (id : string)
  : option WebNotification :=
  store ≫= (fun m => m !! id).

(** The members of [Object.prototype] (ECMAScript, with its Annex B)
    other than [__proto__]; all of them are writable and hold functions. *)
Definition object_prototype_names : list string :=
  ["constructor"; "hasOwnProperty"; "isPrototypeOf"; "propertyIsEnumerable";
   "toLocaleString"; "toString"; "valueOf";
   "__defineGetter__"; "__defineSetter__"; "__lookupGetter__"; "__lookupSetter__"].

Definition word_char (a : ascii) : bool :=
  let n := Ascii.N_of_ascii a in
  ((48 <=? n) && (n <=? 57) || (65 <=? n) && (n <=? 90) || (97 <=? n) && (n <=? 122)
   || (n =? 95) || (n =? 36))%N.

(** Attribute and operation names of the web interfaces are made of
    letters, digits, [_] and [$]. *)
Fixpoint is_word (s : string) : bool :=
  match s with
  | EmptyString => true
  | String a s' => word_char a && is_word s'
  end.

(** How [id], other than [__proto__] and not stored in the object,
    resolves on the object's prototype chain: through the notification
    that replaced the prototype, if one did, and then [Object.prototype]. *)
Definition inherited (env : Env) (store : option (gmap string WebNotification))
    (id : string) : Member :=
  match
    (match web_handle store "__proto__" with
     | Some _ => if is_word id then notification_member env id else Absent
     | None => Absent
     end)
  with
  | Absent => if existsb (String.eqb id) object_prototype_names then Method else Absent
  | found => found
  end.

(** What [this._webNotifications?.[notificationId]] yields. *)
Inductive Lookup : Type :=
| OwnHandle (n : WebNotification)        (* a stored handle *)
| PrototypeHandle (n : WebNotification)  (* [__proto__], after a notification replaced the prototype *)
| NoValue                                (* [undefined] *)
| NoNotification (r : Reason).           (* a value whose [close] cannot be
                                            called, or a read that throws *)

Definition not_closable : Reason :=
  TypeErrorObj "this._webNotifications[notificationId].close is not a function".

Definition illegal_invocation : Reason := TypeErrorObj "Illegal invocation".

Definition lookup_handle (env : Env) (store : option (gmap string WebNotification))
    (id : string) : Lookup :=
  match store with
  | None => NoValue
  | Some m =>
      match m !! id with
      | Some n => if String.eqb id "__proto__" then PrototypeHandle n else OwnHandle n
      | None =>
          if String.eqb id "__proto__" then NoNotification not_closable
          else
            match inherited env store id with
            | Absent => NoValue
            | Method => NoNotification not_closable
            | Accessor => NoNotification illegal_invocation
            end
      end
  end.

(** Whether [this._webNotifications[id] = notification] goes through
    (the module is strict code, where writing to an inherited accessor
    that refuses the object throws). *)
Definition assignable (env : Env) (store : option (gmap string WebNotification))
    (id : string) : bool :=
  match web_handle store id with
  | Some _ => true
  | None =>
      String.eqb id "__proto__" ||
      match inherited env store id with
      | Accessor => false
      | _ => true
      end
  end.

(** [notifications.create] from the point where [id] and [opts] are
    known. [store] is [this._webNotifications] ([None]: not yet set).
    The function calls itself after a granted permission request;
    [fuel] bounds the number of such calls, and the result is [None]
    when it is used up. *)
Fixpoint create_from (fuel : nat) (env : Env) (round : nat)
    (store : option (gmap string WebNotification)) (id : string)
    (opts : option NotificationOptions)
  : option (Promise string * option (gmap string WebNotification) * list Event) :=
  match fuel with
  | O => None
  | S fuel' =>
      match chrome_attempt env round id opts with
      | inl notifId => Some (Resolved notifId, store, [CallCreate id opts])
      | inr tr =>
          match web_notification env with
          | Some N =>
              let permission := checkPermission env round in
              if String.eqb permission "granted" then
                match opts with
                | None =>
                    Some (Rejected (TypeErrorObj
                            "Cannot read properties of undefined (reading 'title')"),
                          store, tr)
                | Some o =>
                    let n := web_notification_of id o in
                    match construct N n with
                    | Some r => Some (Rejected r, store, tr)
                    | None =>
                        if assignable env store id then
                          Some (Resolved id, Some (<[id := n]> (default ∅ store)),
                                tr ++ [NewNotification n])
                        else
                          Some (Rejected illegal_invocation, Some (default ∅ store),
                                tr ++ [NewNotification n])
                    end
                end
              else if String.eqb permission "default" then
                let '(newPermission, asked) := requestPermission env round in
                let tr' :=
                  tr ++ Console LWarn "[Browser] Notification permission not granted. Requesting..."
                     :: asked in
                if String.eqb newPermission "granted" then
                  match create_from fuel' env (S round) store id opts with
                  | Some (p, store', tr2) => Some (p, store', tr' ++ tr2)
                  | None => None
                  end
                else Some (Resolved id, store, tr' ++ [unavailable])
              else Some (Resolved id, store, tr ++ [unavailable])
          | None => Some (Resolved id, store, tr ++ [unavailable])
          end
      end
  end.

(** [notifications.create(notificationId, options)] called at time [now]. *)
Definition create (fuel : nat) (env : Env) (store : option (gmap string WebNotification))
    (notificationId : string + NotificationOptions)
    (options : option NotificationOptions) (now : Z)
  : option (Promise string * option (gmap string WebNotification) * list Event) :=
  create_from fuel env 0 store (create_id notificationId now)
    (create_opts notificationId options).

(** [notifications.clear] *)
Definition clear (env : Env) (store : option (gmap string WebNotification))
    (notificationId : string)
  : Promise bool * option (gmap string WebNotification) * list Event :=
  let web (tr : list Event) :=
    match lookup_handle env store notificationId with
    | OwnHandle n =>
        (Resolved true, delete notificationId <$> store, tr ++ [CloseNotification n])
    | PrototypeHandle n => (Resolved true, store, tr ++ [CloseNotification n])
    | NoValue => (Resolved false, store, tr)
    | NoNotification r => (Rejected r, store, tr)
    end in
  match chrome_notifications env ≫= cn_clear with
  | Some f =>
      match f notificationId with
      | ClearOk wasCleared => (Resolved wasCleared, store, [CallClear notificationId])
      | ClearThrows _ =>
          web [CallClear notificationId;
               Console LWarn "[Browser] Failed to clear notification:"]
      end
  | None => web []
  end.


(** The web [Notification] capability grants permission: it exists and
    its permission reads "granted", or reads "default" and the request
    that follows is answered "granted". *)
Definition web_permission_granted (env : Env) (round : nat) : Prop :=
  exists N, web_notification env = Some N /\
    (permission N round = "granted" \/
     (permission N round = "default" /\ requestPermission_answer N round = "granted")).

End Notifications.

(** ** The web platform functions the code calls *)

Module Web.

(** The properties of a [URL] object that are read. *)
Record URL : Type := {
  origin : string;
  pathname : string;
  search : string;
  hash : string
}.

Record Platform : Type := {
  (** [new URL(s)]; [None] when the constructor throws a [TypeError]. *)
  URL_new : string -> option URL;
  (** [new URLSearchParams(init).get(name)]; [None] is [null]. *)
  URLSearchParams_get : string -> string -> option string;
  encodeURIComponent : string -> string
}.

(** [s.substring(1)] *)
Definition substring_1 (s : string) : string :=
  match s with
  | EmptyString => EmptyString
  | String _ t => t
  end.

End Web.

(** ** Clean copy URL ([src/logic/cleanCopyUrl.ts], known through its tests) *)

Module CleanCopyUrl.
Import Js Web.

(** Modelled from the spec: the module [src/logic/cleanCopyUrl.ts] that
    defines [cleanCopyUrl] is not among the sources. Section 4.4:
    "parses the input as a URL, returns origin + pathname (dropping query
    and fragment); on parse failure, returns an empty string". *)
Definition cleanCopyUrl (P : Platform) (url : string) : string :=
  match URL_new P url with
  | Some u => origin u +:+ pathname u
  | None => ""
  end.

(** What script injection into a tab answers. *)
Record Scripting : Type := {
  (** writing to the clipboard: [Some r] when the injection is rejected *)
  inject_copy : Z -> string -> option Reason;
  (** the link search: the [href] of the anchor found, or [null] *)
  inject_find_link : Z -> option string -> Reason + option string
}.

Inductive Event : Type :=
| InjectCopy (tabId : Z) (cleanedUrl : string)
| InjectFindLink (tabId : Z) (selection : option string)
| Warn (text : string)
| ShowNotification (title message : string).

Record ActionContext : Type := {
  tab_id : option Z;
  selection : option string
}.

Record ContextMenuAction : Type := {
  title : string;
  contexts : list string;
  action : ActionContext -> list Event
}.

Definition injection_failed : list Event :=
  [Warn "Error while copying cleaned URL to clipboard:";
   ShowNotification "Clean Copy URL" "An error occurred while copying the cleaned URL."].

Definition nothing_found : list Event :=
  [ShowNotification "Clean Copy URL" "No valid URL found to copy."].

Definition copy (S : Scripting) (tabId : Z) (cleaned : string) : list Event :=
  InjectCopy tabId cleaned ::
  match inject_copy S tabId cleaned with
  | None => []
  | Some _ => injection_failed
  end.

(** Modelled from the spec: the five steps of section 4.4. The tab
    identifier defaults to 0 as the tests expect; a link whose [href]
    cleans to the empty string counts as no valid URL. *)
Definition run_action (P : Platform) (S : Scripting) (ctx : ActionContext) : list Event :=
  let tabId := default 0%Z (tab_id ctx) in
  let cleaned :=
    if truthy_str (selection ctx) then cleanCopyUrl P (default "" (selection ctx)) else "" in
  if negb (is_empty cleaned) then copy S tabId cleaned
  else
    InjectFindLink tabId (selection ctx) ::
    match inject_find_link S tabId (selection ctx) with
    | inl _ => injection_failed
    | inr (Some href) =>
        let cleaned' := cleanCopyUrl P href in
        if negb (is_empty cleaned') then copy S tabId cleaned' else nothing_found
    | inr None => nothing_found
    end.

(** Modelled from the spec: [cleanCopyUrlAction] of the same absent
    module; title and contexts as sections 4.4, 6 and 8 and the tests
    give them. *)
Definition cleanCopyUrlAction (P : Platform) (S : Scripting) : ContextMenuAction :=
  {| title := "Clean Copy URL";
     contexts := ["link"; "selection"; "page"];
     action := run_action P S |}.

End CleanCopyUrl.

(** ** The identity shim ([ChromeIdentityApi] in [src/utils/identity/util.ts]) *)

Module Identity.
Import Js Web.

Record Cookie : Type := { cookie_value : string }.

(** What a vendor callback receives: its argument, and the value of
    [chrome.runtime.lastError] while it runs. *)
Record Reply (A : Type) : Type := {
  lastError : option LastError;
  arg : A
}.
Arguments lastError {A} r.
Arguments arg {A} r.

Record GetAuthTokenResult : Type := {
  token : option string;
  grantedScopes : option (list string)
}.

(** The argument of the [getAuthToken] callback: nothing, the token
    itself (the older callback shape), or a result object. *)
Inductive AuthTokenArg : Type :=
| ArgUndefined
| ArgString (s : string)
| ArgResult (r : GetAuthTokenResult).

Record Vendor : Type := {
  (** [globalThis.window.location.href]; [None] where there is no window *)
  window_location_href : option string;
  cookies_get : string -> string -> Reply (option Cookie);
  cookies_set : string -> string -> string -> Reply (option Cookie);
  getRedirectURL : string;
  launchWebAuthFlow : string -> bool -> Reply (option string);
  getAuthToken : bool -> Reply AuthTokenArg
}.

Record ChromeIdentityApi : Type := {
  clientId : string;
  scopes : list string
}.

Definition googleAuthApiUrl : string := "https://accounts.google.com/o/oauth2/auth".

Inductive Event : Type :=
| CookiesGet (url name : string)
| CookiesSet (url name value : string)
| LaunchWebAuthFlow (url : string) (interactive : bool)
| GetAuthToken (interactive : bool).

Definition is_cookie_write (e : Event) : bool :=
  match e with
  | CookiesSet _ _ _ => true
  | _ => false
  end.

(** The name of the cookie an event reads or writes. *)
Definition cookie_name (e : Event) : option string :=
  match e with
  | CookiesGet _ name | CookiesSet _ name _ => Some name
  | _ => None
  end.

(** The callback shared by [cookies.get] and [cookies.set]. *)
Definition cookie_callback (r : Reply (option Cookie)) : Promise string :=
  match lastError r with
  | Some e => Rejected (LastErrorObj e)
  | None => Resolved (or_else (cookie_value <$> arg r) "")
  end.

Definition no_window {A} : Promise A * list Event :=
  (Rejected (TypeErrorObj "Cannot read properties of undefined (reading 'location')"), []).

(** [tokenCookie(operation, token)]; [token] is [None] when omitted. *)
Definition tokenCookie (v : Vendor) (operation : string) (token : option string)
  : Promise string * list Event :=
  let cookieName := "authToken" in
  if String.eqb operation "get" then
    match window_location_href v with
    | Some href => (cookie_callback (cookies_get v href cookieName), [CookiesGet href cookieName])
    | None => no_window
    end
  else if String.eqb operation "set" && truthy_str token then
    match window_location_href v with
    | Some href =>
        let value := default "" token in
        (cookie_callback (cookies_set v href cookieName value),
         [CookiesSet href cookieName value])
    | None => no_window
    end
  else
    (Rejected (ErrorObj "Invalid operation or missing token for set operation"), []).

(** How an expression completes. *)
Inductive Completion (A : Type) : Type :=
| Normal (a : A)
| Throws (r : Reason).
Arguments Normal {A} a.
Arguments Throws {A} r.

(** [extractToken]; [None] is [null]. *)
Definition extractToken (P : Platform) (redirectUrl : option string)
  : Completion (option string) :=
  if negb (truthy_str redirectUrl) then Normal None
  else
    match URL_new P (default "" redirectUrl) with
    | None => Throws (TypeErrorObj "Invalid URL")
    | Some url =>
        Normal (if negb (is_empty (hash url))
                then URLSearchParams_get P (substring_1 (hash url)) "access_token"
                else None)
    end.

(** [redirectUrl || null] *)
Definition or_null (o : option string) : option string :=
  if truthy_str o then o else None.

(** The URL [signIn] launches the web auth flow with. *)
Definition auth_url (P : Platform) (api : ChromeIdentityApi) (v : Vendor) : string :=
  googleAuthApiUrl +:+ "?client_id=" +:+ clientId api
    +:+ "&response_type=token&redirect_uri=" +:+ encodeURIComponent P (getRedirectURL v)
    +:+ "&scope=" +:+ encodeURIComponent P (String.concat " " (scopes api)).

(** [tokenResponse.token] *)
Definition token_property (a : AuthTokenArg) : Completion (option string) :=
  match a with
  | ArgUndefined =>
      Throws (TypeErrorObj "Cannot read properties of undefined (reading 'token')")
  | ArgString _ => Normal None
  | ArgResult r => Normal (token r)
  end.

(** Truthiness of the callback argument. *)
Definition truthy_arg (a : AuthTokenArg) : bool :=
  match a with
  | ArgUndefined => false
  | ArgString s => negb (is_empty s)
  | ArgResult _ => true
  end.

(** [signIn(interactive)], run against the local storage [ls]. A
    callback that throws leaves the promise unsettled. *)
Definition signIn (P : Platform) (api : ChromeIdentityApi) (v : Vendor)
    (interactive : bool) (ls : gmap string string)
  : Promise unit * gmap string string * list Event :=
  let url := auth_url P api v in
  let flow := launchWebAuthFlow v url interactive in
  let launched := LaunchWebAuthFlow url interactive in
  match lastError flow with
  | Some e => (Rejected (LastErrorObj e), ls, [launched])
  | None =>
      match extractToken P (or_null (arg flow)) with
      | Throws _ => (Pending, ls, [launched])
      | Normal tok =>
          if truthy_str tok then
            let tokenResponse := getAuthToken v false in
            let trace := [launched; GetAuthToken false] in
            match lastError tokenResponse with
            | Some e => (Rejected (LastErrorObj e), ls, trace)
            | None =>
                match token_property (arg tokenResponse) with
                | Throws _ => (Pending, ls, trace)
                | Normal t => (Resolved tt, <["authToken" := or_else t ""]> ls, trace)
                end
            end
          else (Rejected (ErrorObj "Failed to extract token"), ls, [launched])
      end
  end.

(** [signOut()], run against the local storage [ls]. *)
Definition signOut (v : Vendor) (ls : gmap string string)
  : Promise unit * gmap string string * list Event :=
  let r := getAuthToken v true in
  match lastError r with
  | Some e => (Rejected (LastErrorObj e), ls, [GetAuthToken true])
  | None =>
      (Resolved tt,
       if truthy_arg (arg r) then delete "authToken" ls else ls,
       [GetAuthToken true])
  end.

End Identity.

(** ** A small platform and sample environments to run the code on *)

Module Sample.
Import Js Web.

(** The text before the first [c], and the text after it when there is one. *)
Fixpoint split_at (c : ascii) (s : string) : string * option string :=
  match s with
  | EmptyString => (EmptyString, None)
  | String a s' =>
      if Ascii.eqb a c then (EmptyString, Some s')
      else let '(l, r) := split_at c s' in (String a l, r)
  end.

(** All the pieces between occurrences of [c]. *)
Fixpoint split_on (c : ascii) (s : string) : list string :=
  match s with
  | EmptyString => [EmptyString]
  | String a s' =>
      let r := split_on c s' in
      if Ascii.eqb a c then EmptyString :: r
      else match r with
           | x :: xs => String a x :: xs
           | [] => [String a EmptyString]
           end
  end.

Fixpoint all_chars (f : ascii -> bool) (s : string) : bool :=
  match s with
  | EmptyString => true
  | String a s' => f a && all_chars f s'
  end.

Definition between (lo hi : N) (a : ascii) : bool :=
  (lo <=? Ascii.N_of_ascii a)%N && (Ascii.N_of_ascii a <=? hi)%N.

Definition is_alnum (a : ascii) : bool :=
  between 48 57 a || between 65 90 a || between 97 122 a.

Definition one_of (chars : string) (a : ascii) : bool :=
  regex_literal_test (String a EmptyString) chars.

Definition host_char (a : ascii) : bool :=
  between 48 57 a || between 97 122 a || one_of ".-:" a.

(** Characters the URL parser leaves as they are in a path, query or fragment. *)
Definition plain_char (a : ascii) : bool :=
  is_alnum a || one_of "-._~!$&'()*+,;=:@/%?" a.

(** Neither [?] nor [#]. *)
Definition not_delimiter (a : ascii) : bool := negb (one_of "?#" a).

Definition with_prefix (p : string) (part : option string) : string :=
  match part with
  | Some q => if is_empty q then "" else p +:+ q
  | None => ""
  end.

(** [new URL(s)] for absolute http(s) URLs already in normal form (lower
    case host, no credentials, no default port, no dot segments, nothing
    to percent-encode); every other input is refused. *)
Definition parse_http_url (s : string) : option URL :=
  let '(s1, fragment) := split_at "#" s in
  let '(s2, query) := split_at "?" s1 in
  let '(scheme, rest) := split_at ":" s2 in
  if String.eqb scheme "http" || String.eqb scheme "https" then
    match rest with
    | Some (String "/" (String "/" r)) =>
        let '(authority, path) := split_at "/" r in
        if negb (is_empty authority) && all_chars host_char authority
           && all_chars plain_char (default "" path)
           && all_chars plain_char (default "" query)
           && all_chars plain_char (default "" fragment)
        then Some {| origin := scheme +:+ "://" +:+ authority;
                     pathname := "/" +:+ default "" path;
                     search := with_prefix "?" query;
                     hash := with_prefix "#" fragment |}
        else None
    | _ => None
    end
  else None.

Fixpoint first_value (name : string) (pairs : list string) : option string :=
  match pairs with
  | [] => None
  | p :: rest =>
      let '(k, v) := split_at "=" p in
      if negb (is_empty p) && String.eqb k name then Some (default "" v)
      else first_value name rest
  end.

(** [new URLSearchParams(init).get(name)] for parameters that carry no
    percent-encoding and no [+]. *)
Definition search_params_get (init name : string) : option string :=
  first_value name (split_on "&" init).

Definition hex_digit (n : N) : ascii :=
  match String.get (N.to_nat n) "0123456789ABCDEF" with
  | Some a => a
  | None => "0"%char
  end.

Definition percent_encode (a : ascii) : string :=
  let n := Ascii.N_of_ascii a in
  String "%" (String (hex_digit (n / 16)) (String (hex_digit (n mod 16)) EmptyString)).

(** [encodeURIComponent], byte by byte on the UTF-8 form of the text. *)
Fixpoint encode_uri_component (s : string) : string :=
  match s with
  | EmptyString => EmptyString
  | String a s' =>
      (if is_alnum a || one_of "-_.!~*'()" a then String a EmptyString else percent_encode a)
      +:+ encode_uri_component s'
  end.

Definition platform : Platform :=
  {| URL_new := parse_http_url;
     URLSearchParams_get := search_params_get;
     encodeURIComponent := encode_uri_component |}.

(** Edge on Windows. *)
Definition edge_on_windows : Detector.Navigator :=
  {| Detector.userAgent :=
       "Mozilla/5.0 (Windows NT 10.0; Win64; x64) AppleWebKit/537.36 (KHTML, like Gecko) Chrome/120.0.0.0 Safari/537.36 Edg/120.0.0.0";
     Detector.brave := JsUndefined |}.

(** A [chrome] global with neither [sidePanel] nor [sidebarAction]. *)
Definition chrome_without_panels : SidePanel.Chrome :=
  {| SidePanel.sidePanel := None; SidePanel.sidebarAction := None |}.

Definition no_options : SidePanel.Options :=
  {| SidePanel.enabled := None; SidePanel.path := None |}.

(** The [Notification] interface of the Notifications API and its parent
    [EventTarget]: attributes are accessors, operations are methods. *)
Definition notification_interface (name : string) : Notifications.Member :=
  if existsb (String.eqb name)
       ["onclick"; "onshow"; "onerror"; "onclose"; "title"; "dir"; "lang"; "body";
        "tag"; "image"; "icon"; "badge"; "vibrate"; "timestamp"; "renotify"; "silent";
        "requireInteraction"; "data"; "actions"]
  then Notifications.Accessor
  else if existsb (String.eqb name)
            ["close"; "addEventListener"; "removeEventListener"; "dispatchEvent"]
  then Notifications.Method
  else Notifications.Absent.

(** A page without the extension API, where notifications are denied. *)
Definition denied_page : Notifications.Env :=
  {| Notifications.chrome := None;
     Notifications.has_window := true;
     Notifications.Notification :=
       Some {| Notifications.permission := fun _ => "denied";
               Notifications.requestPermission_answer := fun _ => "denied";
               Notifications.construct := fun _ => None |};
     Notifications.notification_member := notification_interface |}.

Definition tab_updated : Notifications.NotificationOptions :=
  {| Notifications.title := Some "Tab Updated";
     Notifications.message := Some "The tab has been updated.";
     Notifications.iconUrl := Some "icon-48.png";
     Notifications.requireInteraction := None |}.

Definition tab_updated_handle : Notifications.WebNotification :=
  Notifications.web_notification_of "n1" tab_updated.

Definition no_error {A} (a : A) : Identity.Reply A :=
  {| Identity.lastError := None; Identity.arg := a |}.

Definition failed {A} (message : string) (a : A) : Identity.Reply A :=
  {| Identity.lastError := Some {| le_message := Some message |}; Identity.arg := a |}.

Definition granted_token : Identity.AuthTokenArg :=
  Identity.ArgResult {| Identity.token := Some "ya29.stored"; Identity.grantedScopes := None |}.

(** A vendor on which the whole sign-in flow succeeds. *)
Definition cooperative : Identity.Vendor :=
  {| Identity.window_location_href := Some "https://example.com/popup.html";
     Identity.cookies_get := fun _ _ => no_error (Some {| Identity.cookie_value := "t0" |});
     Identity.cookies_set := fun _ _ value => no_error (Some {| Identity.cookie_value := value |});
     Identity.getRedirectURL := "https://abc.chromiumapp.org/";
     Identity.launchWebAuthFlow := fun _ _ =>
       no_error (Some "https://abc.chromiumapp.org/#access_token=ya29.fresh&token_type=Bearer");
     Identity.getAuthToken := fun _ => no_error granted_token |}.

(** A vendor on which the user does not approve access. *)
Definition refusing : Identity.Vendor :=
  {| Identity.window_location_href := Some "https://example.com/popup.html";
     Identity.cookies_get := fun _ _ => failed "No host permissions for cookies" None;
     Identity.cookies_set := fun _ _ _ => failed "No host permissions for cookies" None;
     Identity.getRedirectURL := "https://abc.chromiumapp.org/";
     Identity.launchWebAuthFlow := fun _ _ => failed "The user did not approve access." None;
     Identity.getAuthToken := fun _ =>
       failed "The user did not approve access." Identity.ArgUndefined |}.

Definition client : Identity.ChromeIdentityApi :=
  {| Identity.clientId := "client-1.apps.googleusercontent.com";
     Identity.scopes := ["openid"; "email"] |}.

Definition silent_scripting : CleanCopyUrl.Scripting :=
  {| CleanCopyUrl.inject_copy := fun _ _ => None;
     CleanCopyUrl.inject_find_link := fun _ _ => inr None |}.

End Sample.

(** ** The rest of the notifications facade, its helpers and a caller *)

Module Facade.
Import Js Notifications.

(** How [chrome.notifications.update] answers. *)
Inductive UpdateReply : Type :=
| UpdateOk (wasUpdated : bool)
| UpdateThrows (r : Reason).

(** [update] adds one vendor call to those of [clear] and [create]. *)
Inductive Event : Type :=
| CallUpdate (id : string) (options : NotificationOptions)
| Inner (e : Notifications.Event).

(** [notifications.update]. [chrome_update] is the [update] method of
    [chrome.notifications], when that object has one. *)
Definition update (fuel : nat) (env : Env)
    (chrome_update : option (string -> NotificationOptions -> UpdateReply))
    (store : option (gmap string WebNotification))
    (notificationId : string) (options : NotificationOptions)
  : option (Promise bool * option (gmap string WebNotification) * list Event) :=
  let recreate (tr : list Event) :=
    match clear env store notificationId with
    | (Rejected r, cleared, tr1) => Some (Rejected r, cleared, tr ++ (Inner <$> tr1))
    | (Pending, cleared, tr1) => Some (Pending, cleared, tr ++ (Inner <$> tr1))
    | (Resolved _, cleared, tr1) =>
        match create_from fuel env 0 cleared notificationId (Some options) with
        | Some (Resolved _, store', tr2) =>
            Some (Resolved true, store', tr ++ (Inner <$> tr1) ++ (Inner <$> tr2))
        | Some (Rejected r, store', tr2) =>
            Some (Rejected r, store', tr ++ (Inner <$> tr1) ++ (Inner <$> tr2))
        | Some (Pending, store', tr2) =>
            Some (Pending, store', tr ++ (Inner <$> tr1) ++ (Inner <$> tr2))
        | None => None
        end
    end in
  match chrome_notifications env ≫= (fun _ => chrome_update) with
  | Some f =>
      match f notificationId options with
      | UpdateOk wasUpdated =>
          Some (Resolved wasUpdated, store, [CallUpdate notificationId options])
      | UpdateThrows _ =>
          recreate [CallUpdate notificationId options;
                    Inner (Console LWarn "[Browser] Failed to update notification:")]
      end
  | None => recreate []
  end.

(** The options [showNotification] builds; its [type] is always "basic". *)
Definition simple_options (title message : string) (iconUrl : option string)
  : NotificationOptions :=
  {| title := Some title;
     message := Some message;
     iconUrl := Some (or_else iconUrl "icons/icon-48.svg");
     requireInteraction := None |}.

(** [showNotification(title, message, iconUrl)] called at time [now]. *)
Definition showNotification (fuel : nat) (env : Env)
    (store : option (gmap string WebNotification))
    (title message : string) (iconUrl : option string) (now : Z)
  : option (Promise string * option (gmap string WebNotification) * list Notifications.Event) :=
  create fuel env store (inr (simple_options title message iconUrl)) None now.

(** The options of the notification the background worker shows. *)
Definition tab_updated_options (url : string) : NotificationOptions :=
  {| title := Some "Tab Updated";
     message := Some ("The tab with URL " +:+ url +:+ " has been updated.");
     iconUrl := Some "icon-48.png";
     requireInteraction := None |}.

(** The [tabs.onUpdated] listener of [src/background/index.ts], given
    [changeInfo.status] and [tab.url]. The promise of [create] is dropped. *)
Definition onTabUpdated (fuel : nat) (env : Env)
    (store : option (gmap string WebNotification))
    (status url : option string) (now : Z)
  : option (option (gmap string WebNotification) * list Notifications.Event) :=
  match status, url with
  | Some st, Some u =>
      if String.eqb st "complete" && negb (is_empty u) then
        match create fuel env store (inr (tab_updated_options u)) None now with
        | Some (_, store', tr) => Some (store', Console LLog "Tab updated:" :: tr)
        | None => None
        end
      else Some (store, [])
  | _, _ => Some (store, [])
  end.

(** Every stored handle sits under its own tag and has a title. *)
Definition well_tagged (store : option (gmap string WebNotification)) : Prop :=
  forall id n, web_handle store id = Some n -> wn_tag n = id /\ wn_title n <> "".

Definition is_close (e : Notifications.Event) : bool :=
  match e with
  | CloseNotification _ => true
  | _ => false
  end.

End Facade.

(** ** More environments *)

Module Scenario.
Import Js Notifications.

Definition web_only (N : NotificationGlobal) : Env :=
  {| chrome := None; has_window := true; Notification := Some N;
     notification_member := Sample.notification_interface |}.

(** A page where web notifications are already allowed. *)
Definition granted_page : Env :=
  web_only {| permission := fun _ => "granted";
              requestPermission_answer := fun _ => "granted";
              construct := fun _ => None |}.


(** A page that answers "granted" to every request while its permission
    keeps reading "default". *)
Definition stuck_notification : NotificationGlobal :=
  {| permission := fun _ => "default";
     requestPermission_answer := fun _ => "granted";
     construct := fun _ => None |}.

Definition stuck_page : Env := web_only stuck_notification.


(** The handle object after [create("__proto__", ...)] on the web
    fallback: its prototype is that notification. *)
Definition replaced_store : option (gmap string WebNotification) :=
  Some {["__proto__" := web_notification_of "__proto__" Sample.tab_updated]}.

(** A [chrome] whose side panel object has no [open] and no [getOptions]. *)
Definition panel_without_open : SidePanel.Chrome :=
  {| SidePanel.sidePanel := Some {| SidePanel.sp_setOptions := Some (fun _ => Resolved tt);
                                    SidePanel.sp_open := None;
                                    SidePanel.sp_getOptions := None |};
     SidePanel.sidebarAction := None |}.

(** A [chrome] with the legacy sidebar only. *)
Definition legacy_only : SidePanel.Chrome :=
  {| SidePanel.sidePanel := None;
     SidePanel.sidebarAction := Some {| SidePanel.sa_setPanel := Some (fun _ => Resolved tt);
                                        SidePanel.sa_open := Some (Rejected (ErrorObj "no user gesture")) |} |}.

(** Brave, which reports a Chrome user agent. *)
Definition brave_on_linux : Detector.Navigator :=
  {| Detector.userAgent :=
       "Mozilla/5.0 (X11; Linux x86_64) AppleWebKit/537.36 (KHTML, like Gecko) Chrome/120.0.0.0 Safari/537.36";
     Detector.brave := JsObject |}.

(** A vendor whose [getAuthToken] callback receives the token as a string. *)
Definition string_token_vendor : Identity.Vendor :=
  {| Identity.window_location_href := Some "https://example.com/popup.html";
     Identity.cookies_get := fun _ _ => Sample.no_error None;
     Identity.cookies_set := fun _ _ _ => Sample.no_error None;
     Identity.getRedirectURL := "https://abc.chromiumapp.org/";
     Identity.launchWebAuthFlow := fun _ _ =>
       Sample.no_error (Some "https://abc.chromiumapp.org/#access_token=ya29.fresh");
     Identity.getAuthToken := fun _ => Sample.no_error (Identity.ArgString "ya29.plain") |}.

(** A vendor whose redirect URL is not a URL. *)
Definition garbled_vendor : Identity.Vendor :=
  {| Identity.window_location_href := None;
     Identity.cookies_get := fun _ _ => Sample.no_error None;
     Identity.cookies_set := fun _ _ _ => Sample.no_error None;
     Identity.getRedirectURL := "https://abc.chromiumapp.org/";
     Identity.launchWebAuthFlow := fun _ _ => Sample.no_error (Some "not a url");
     Identity.getAuthToken := fun _ => Sample.no_error Identity.ArgUndefined |}.

End Scenario.

(** * Properties *)

Section StringSearch.
Import Js.

Lemma starts_with_app (p s : string) :
  starts_with p s = true <-> exists post, s = p +:+ post.
Proof.
  revert s. induction p as [|a p IH]; intros s; simpl.
  - split; [intros _; by exists s | done].
  - destruct s as [|b s].
    + split; [done | intros [post H]; discriminate].
    + destruct (Ascii.eqb_spec a b) as [->|Hne].
      * rewrite IH. split; intros [post H]; exists post; [by rewrite H | by injection H].
      * split; [done | intros [post H]; injection H; intros; congruence].
Qed.

(** The regular-expression test of a literal is substring occurrence. *)
Lemma regex_literal_test_occurs (p s : string) :
  regex_literal_test p s = true <-> Occurs p s.
Proof.
  induction s as [|b s IH].
  - simpl. rewrite orb_false_r, starts_with_app. split.
    + intros [post H]. by exists "", post.
    + intros [pre [post H]]. destruct pre; [by exists post | discriminate].
  - simpl. rewrite orb_true_iff, IH, starts_with_app. split.
    + intros [[post H] | [pre [post H]]].
      * by exists "", post.
      * exists (String b pre), post. simpl. by rewrite H.
    + intros [pre [post H]]. destruct pre as [|c pre].
      * left. by exists post.
      * right. exists pre, post. simpl in H. by injection H.
Qed.

End StringSearch.

Section DetectorProperties.
Import Js Detector.

Lemma getBrowserName_edge (nav : Navigator) :
  is_brave nav = false -> is_edge nav = true -> getBrowserName nav = "Edge".
Proof. unfold getBrowserName. by intros -> ->. Qed.

Lemma getBrowserName_opera (nav : Navigator) :
  is_brave nav = false -> is_edge nav = false -> is_opera nav = true ->
  getBrowserName nav = "Opera".
Proof. unfold getBrowserName. by intros -> -> ->. Qed.

Lemma getBrowserName_chrome_iff (nav : Navigator) :
  getBrowserName nav = "Chrome" <-> is_chrome nav = true.
Proof.
  unfold getBrowserName, is_chrome, is_brave, is_edge, is_opera.
  destruct (truthy (brave nav)), (regex_literal_test "Edg" (userAgent nav)),
    (regex_literal_test "OPR" (userAgent nav)),
    (regex_literal_test "Chrome" (userAgent nav)); simpl; split; done.
Qed.

(** C3: [getBrowserName] returns one of "Chrome", "Brave", "Edge",
    "Opera", "Unknown" in every environment, and because the Edge and
    Opera tests come before the Chrome test, a user agent containing
    "Edg" or "OPR" is never reported as "Chrome". *)
Theorem getBrowserName_total_and_ordered (nav : Navigator) :
  getBrowserName nav ∈ ["Chrome"; "Brave"; "Edge"; "Opera"; "Unknown"] /\
  (Occurs "Edg" (userAgent nav) \/ Occurs "OPR" (userAgent nav) ->
   getBrowserName nav <> "Chrome").
Proof.
  split.
  - unfold getBrowserName.
    destruct (is_brave nav), (is_edge nav), (is_opera nav), (is_chrome nav);
      set_solver.
  - intros H. rewrite getBrowserName_chrome_iff. unfold is_chrome.
    rewrite <- !regex_literal_test_occurs in H.
    destruct H as [-> | ->]; rewrite ?orb_true_r, ?andb_false_r; done.
Qed.

Lemma getBrowserName_total_and_ordered_witness :
  getBrowserName Sample.edge_on_windows <> "Chrome".
Proof.
  apply (proj2 (getBrowserName_total_and_ordered Sample.edge_on_windows)).
  left. apply regex_literal_test_occurs. vm_compute. reflexivity.
Defined.

End DetectorProperties.

Section SampleParser.
Import Js Web Sample.

Lemma all_chars_app (f : ascii -> bool) (s t : string) :
  all_chars f (s +:+ t) = all_chars f s && all_chars f t.
Proof.
  induction s as [|a s IH]; simpl; [done |].
  by rewrite IH, andb_assoc.
Qed.

(** The text before the first [c] does not contain [c]. *)
Lemma split_at_before (c : ascii) (s : string) :
  all_chars (fun a => negb (Ascii.eqb a c)) (split_at c s).1 = true.
Proof.
  induction s as [|a s IH]; simpl; [done |].
  destruct (Ascii.eqb a c) eqn:Hac; [done |].
  destruct (split_at c s) as [l r]. simpl in *. by rewrite Hac, IH.
Qed.

(** Both sides of a split keep what holds of every character. *)
Lemma split_at_all (f : ascii -> bool) (c : ascii) (s : string) :
  all_chars f s = true ->
  all_chars f (split_at c s).1 = true /\
  all_chars f (default "" (split_at c s).2) = true.
Proof.
  induction s as [|a s IH]; simpl; [done |].
  intros [Ha Hs]%andb_true_iff.
  destruct (Ascii.eqb a c); [done |].
  destruct (split_at c s) as [l r]. simpl in *.
  destruct (IH Hs) as [Hl Hr]. by rewrite Ha, Hl.
Qed.

Lemma all_chars_not_delimiter (s : string) :
  all_chars (fun a => negb (Ascii.eqb a "?")) s = true ->
  all_chars (fun a => negb (Ascii.eqb a "#")) s = true ->
  all_chars not_delimiter s = true.
Proof.
  induction s as [|a s IH]; simpl; [done |].
  intros [Hq Hs]%andb_true_iff [Hh Hs']%andb_true_iff.
  rewrite (IH Hs Hs'), andb_true_r. unfold not_delimiter, one_of. simpl.
  apply negb_true_iff in Hq, Hh. by rewrite Hq, Hh.
Qed.

(** What the sample parser returns as origin and pathname holds neither
    a [?] nor a [#]: the query and the fragment are cut off. *)
Lemma parse_http_url_no_delimiter (s : string) (u : URL) :
  parse_http_url s = Some u ->
  all_chars not_delimiter (origin u +:+ pathname u) = true.
Proof.
  unfold parse_http_url.
  pose proof (split_at_before "#" s) as Hhash.
  destruct (split_at "#" s) as [s1 fragment]. simpl in Hhash.
  pose proof (split_at_before "?" s1) as Hquery.
  pose proof (split_at_all _ "?" s1 Hhash) as [Hhash2 _].
  destruct (split_at "?" s1) as [s2 query]. simpl in Hquery, Hhash2.
  pose proof (all_chars_not_delimiter s2 Hquery Hhash2) as Hs2.
  pose proof (split_at_all _ ":" s2 Hs2) as [Hscheme Hrest].
  destruct (split_at ":" s2) as [scheme rest]. simpl in Hscheme, Hrest.
  destruct (String.eqb scheme "http" || String.eqb scheme "https"); [| done].
  destruct rest as [[|a1 [|a2 r]]|]; try done.
  { by destruct a1 as [[] [] [] [] [] [] [] []]. }
  destruct (Ascii.eqb_spec a1 "/") as [-> | Hne];
    [| by destruct a1 as [[] [] [] [] [] [] [] []]].
  destruct (Ascii.eqb_spec a2 "/") as [-> | Hne];
    [| by destruct a2 as [[] [] [] [] [] [] [] []]].
  simpl in Hrest.
  pose proof (split_at_all _ "/" r Hrest) as [Hauthority Hpath].
  destruct (split_at "/" r) as [authority path]. simpl in Hauthority, Hpath.
  match goal with |- context [if ?b then _ else _] => destruct b end; [| done].
  intros [= <-]. simpl.
  rewrite !all_chars_app. simpl. by rewrite Hscheme, Hauthority, Hpath.
Qed.

End SampleParser.

Section CleanCopyUrlProperties.
Import Js Web CleanCopyUrl.

(** C1: when the input parses as a URL that has a query or a fragment,
    [cleanCopyUrl] returns exactly the URL's origin followed by its
    pathname; the query and the fragment are not part of the result. *)
Theorem cleanCopyUrl_origin_pathname (P : Platform) (s : string) (u : URL) :
  URL_new P s = Some u ->
  search u <> "" \/ hash u <> "" ->
  cleanCopyUrl P s = origin u +:+ pathname u.
Proof. intros Hparse _. unfold cleanCopyUrl. by rewrite Hparse. Qed.

Lemma cleanCopyUrl_origin_pathname_witness :
  cleanCopyUrl Sample.platform "https://example.com/path?foo=bar#hash"
  = "https://example.com/path".
Proof.
  apply (cleanCopyUrl_origin_pathname Sample.platform
           "https://example.com/path?foo=bar#hash"
           {| origin := "https://example.com"; pathname := "/path";
              search := "?foo=bar"; hash := "#hash" |}).
  - vm_compute. reflexivity.
  - left. simpl. discriminate.
Defined.

(** C2: when the input does not parse as a URL, [cleanCopyUrl] returns
    the empty string. *)
Theorem cleanCopyUrl_invalid (P : Platform) (s : string) :
  URL_new P s = None -> cleanCopyUrl P s = "".
Proof. intros Hparse. unfold cleanCopyUrl. by rewrite Hparse. Qed.

Lemma cleanCopyUrl_invalid_witness :
  cleanCopyUrl Sample.platform "not a url" = "".
Proof.
  apply (cleanCopyUrl_invalid Sample.platform "not a url").
  vm_compute. reflexivity.
Defined.

(** On the sample parser the result never holds a [?] or a [#]. *)
Lemma cleanCopyUrl_sample_drops (s : string) :
  Sample.all_chars Sample.not_delimiter (cleanCopyUrl Sample.platform s) = true.
Proof.
  unfold cleanCopyUrl. simpl.
  destruct (Sample.parse_http_url s) as [u|] eqn:Hu; [| done].
  by apply parse_http_url_no_delimiter with s.
Qed.

(** The tests' other examples. *)
Example cleanCopyUrl_no_path :
  cleanCopyUrl Sample.platform "https://example.com" = "https://example.com/".
Proof. vm_compute. reflexivity. Qed.

Example cleanCopyUrl_port :
  cleanCopyUrl Sample.platform "https://example.com:8080/path?query=test"
  = "https://example.com:8080/path".
Proof. vm_compute. reflexivity. Qed.

(** C7: the descriptor [cleanCopyUrlAction()] has exactly the contexts
    "link", "selection", "page", in that order; its title is the string
    "Clean Copy URL" and its action is the function running the
    pipeline. *)
Theorem cleanCopyUrlAction_descriptor (P : Platform) (S : Scripting) :
  contexts (cleanCopyUrlAction P S) = ["link"; "selection"; "page"] /\
  title (cleanCopyUrlAction P S) = "Clean Copy URL" /\
  forall ctx, action (cleanCopyUrlAction P S) ctx = run_action P S ctx.
Proof. by repeat split. Qed.

(** The action on a selection that is a URL: one injection, with the
    cleaned URL. *)
Example action_on_url_selection :
  action (cleanCopyUrlAction Sample.platform Sample.silent_scripting)
    {| tab_id := Some 123%Z;
       selection := Some "https://example.com/path?query=value#hash" |}
  = [InjectCopy 123 "https://example.com/path"].
Proof. vm_compute. reflexivity. Qed.

Example action_on_plain_text :
  action (cleanCopyUrlAction Sample.platform Sample.silent_scripting)
    {| tab_id := Some 111%Z; selection := Some "Not a link" |}
  = [InjectFindLink 111 (Some "Not a link");
     ShowNotification "Clean Copy URL" "No valid URL found to copy."].
Proof. vm_compute. reflexivity. Qed.

End CleanCopyUrlProperties.

(** Case analysis on an event [H : e ∈ trace] of an explicit trace. *)
Ltac each_event H :=
  repeat (apply elem_of_cons in H as [-> | H]; [try done |]);
  try (by apply elem_of_nil in H).

Section SidePanelProperties.
Import Js SidePanel.

Lemma isAvailable_false (c : Chrome) :
  isAvailable (Some c) = false <-> sidePanel c = None /\ sidebarAction c = None.
Proof.
  unfold isAvailable. destruct (sidePanel c), (sidebarAction c); simpl; split;
    try done; intros [? ?]; done.
Qed.

(** Without a [chrome] global, [setOptions] and [getOptions] fail on
    reading it, while [open] checks for it first. *)
Lemma setOptions_without_chrome (options : Options) :
  setOptions None options = (Rejected (ReferenceErrorObj "chrome is not defined"), []).
Proof. reflexivity. Qed.

Lemma getOptions_without_chrome (options : option (option Z)) :
  getOptions None options = (Rejected (ReferenceErrorObj "chrome is not defined"), []).
Proof. reflexivity. Qed.

Lemma open_without_chrome (options : option (option Z)) :
  open None options
  = (Resolved tt, [Console LLog "[Browser] sidePanel.open() called with options:";
                   Console LError "[Browser] chrome is undefined"]).
Proof. reflexivity. Qed.

(** C8, as stated, fails for [getOptions]: with a [chrome] global that
    has neither API it resolves [null] without writing to the console. *)
Lemma getOptions_unavailable_is_silent :
  isAvailable (Some Sample.chrome_without_panels) = false /\
  getOptions (Some Sample.chrome_without_panels) None = (Resolved None, []) /\
  ~ logs_and_noops (getOptions (Some Sample.chrome_without_panels) None).
Proof.
  repeat split.
  intros (_ & (e & Hin & _) & _). simpl in Hin. by apply elem_of_nil in Hin.
Qed.

(** C8, amended: when the [chrome] global offers neither the side panel
    API nor the sidebar action API, [setOptions] and [open] log a warning
    and do nothing else, and [getOptions] resolves [null] without
    logging; all three resolve and none calls the vendor. *)
Theorem sidePanel_unavailable (c : Chrome) (options : Options)
    (openOptions getOptionsArg : option (option Z)) :
  isAvailable (Some c) = false ->
  (setOptions (Some c) options
   = (Resolved tt, [Console LWarn "[Browser] sidePanel API not available in this browser"])
   /\ logs_and_noops (setOptions (Some c) options)) /\
  (open (Some c) openOptions
   = (Resolved tt, [Console LLog "[Browser] sidePanel.open() called with options:";
                    Console LWarn "[Browser] Cannot open sidebar - API not available"])
   /\ logs_and_noops (open (Some c) openOptions)) /\
  (getOptions (Some c) getOptionsArg = (Resolved None, [])
   /\ noops (getOptions (Some c) getOptionsArg)).
Proof.
  intros [Hsp Hsa]%isAvailable_false.
  unfold setOptions, open, getOptions, logs_and_noops, noops.
  rewrite Hsp, Hsa. simpl.
  repeat split; eauto; try (intros e He; each_event He).
  - eexists. split; [apply elem_of_cons; left; reflexivity | reflexivity].
  - eexists. split; [apply elem_of_cons; left; reflexivity | reflexivity].
Qed.

Lemma sidePanel_unavailable_witness :
  logs_and_noops (setOptions (Some Sample.chrome_without_panels) Sample.no_options) /\
  logs_and_noops (open (Some Sample.chrome_without_panels) None) /\
  noops (getOptions (Some Sample.chrome_without_panels) None).
Proof.
  pose proof (sidePanel_unavailable Sample.chrome_without_panels Sample.no_options
                None None eq_refl) as H.
  exact (conj (proj2 (proj1 H)) (conj (proj2 (proj1 (proj2 H))) (proj2 (proj2 (proj2 H))))).
Defined.

End SidePanelProperties.

Section NotificationsProperties.
Import Js Notifications.

Lemma create_id_string (s : string) (now : Z) : create_id (inl s) now = s.
Proof. reflexivity. Qed.

Lemma create_id_generated (o : NotificationOptions) (now : Z) :
  create_id (inr o) now = "notif-" +:+ pretty now.
Proof. reflexivity. Qed.


(** With permission already granted the web notification is built and
    remembered under its identifier. *)
Lemma create_from_granted (fuel : nat) (env : Env) (round : nat)
    (store : option (gmap string WebNotification)) (id : string)
    (o : NotificationOptions) (N : NotificationGlobal) (tr : list Event) :
  chrome_attempt env round id (Some o) = inr tr ->
  web_notification env = Some N ->
  checkPermission env round = "granted" ->
  construct N (web_notification_of id o) = None ->
  assignable env store id = true ->
  create_from (S fuel) env round store id (Some o)
  = Some (Resolved id, Some (<[id := web_notification_of id o]> (default ∅ store)),
          tr ++ [NewNotification (web_notification_of id o)]).
Proof. intros Ha HN Hp Hc Hw. simpl. by rewrite Ha, HN, Hp, Hc, Hw. Qed.




Lemma assignable_undefined (env : Env) (id : string) : assignable env None id = true.
Proof.
  unfold assignable, inherited, web_handle. cbn [mbind option_bind].
  destruct (String.eqb id "__proto__"); [done |]. cbn [orb].
  by destruct (existsb (String.eqb id) object_prototype_names).
Qed.

(** Whenever [create_from] returns, for options that are present, a
    constructor that does not throw and an identifier that can be
    assigned, its promise is resolved; the identifier is [id] unless the
    extension API supplied its own. *)
Lemma create_from_resolved (fuel : nat) (env : Env) (round : nat)
    (store store' : option (gmap string WebNotification)) (id : string)
    (o : NotificationOptions) (p : Promise string) (trace : list Event) :
  (forall N n, web_notification env = Some N -> construct N n = None) ->
  assignable env store id = true ->
  create_from fuel env round store id (Some o) = Some (p, store', trace) ->
  exists notifId, p = Resolved notifId /\
    (notifId = id \/ exists r, chrome_attempt env r id (Some o) = inl notifId).
Proof.
  intros Hctor Hw. revert round trace.
  induction fuel as [|fuel IH]; intros round trace; simpl; [done |].
  destruct (chrome_attempt env round id (Some o)) as [notifId | tr] eqn:Hattempt.
  { intros [= <- <- <-]. exists notifId. split; [done |]. right. by exists round. }
  destruct (web_notification env) as [N|] eqn:HN;
    [| intros [= <- <- <-]; exists id; by split; [| left]].
  destruct (String.eqb (checkPermission env round) "granted").
  { rewrite (Hctor N _ eq_refl), Hw. intros [= <- <- <-]. exists id. by split; [| left]. }
  destruct (String.eqb (checkPermission env round) "default");
    [| intros [= <- <- <-]; exists id; by split; [| left]].
  destruct (requestPermission env round) as [newPermission asked].
  destruct (String.eqb newPermission "granted");
    [| intros [= <- <- <-]; exists id; by split; [| left]].
  destruct (create_from fuel env (S round) store id (Some o))
    as [[[p' store''] tr2]|] eqn:Hrec; [| done].
  intros [= <- <- <-]. by apply IH with (S round) tr2.
Qed.

(** An identifier that [create] generates can always be assigned. *)
Lemma assignable_generated (env : Env) (store : option (gmap string WebNotification))
    (now : Z) :
  assignable env store ("notif-" +:+ pretty now) = true.
Proof.
  unfold assignable. destruct (web_handle store _); [done |].
  unfold inherited. simpl.
  by destruct (web_handle store "__proto__").
Qed.

(** What [clear] does without the extension API. *)
Lemma clear_without_extension (env : Env) (store : option (gmap string WebNotification))
    (id : string) :
  chrome_notifications env ≫= cn_clear = None ->
  clear env store id
  = match lookup_handle env store id with
    | OwnHandle n => (Resolved true, delete id <$> store, [CloseNotification n])
    | PrototypeHandle n => (Resolved true, store, [CloseNotification n])
    | NoValue => (Resolved false, store, [])
    | NoNotification r => (Rejected r, store, [])
    end.
Proof. intros Habsent. unfold clear. by rewrite Habsent. Qed.

(** A key that is neither [__proto__] nor found on the prototype chain
    is looked up in the map alone. *)
Lemma lookup_handle_plain (env : Env) (store : option (gmap string WebNotification))
    (id : string) :
  id <> "__proto__" -> inherited env store id = Absent ->
  lookup_handle env store id
  = match web_handle store id with
    | Some n => OwnHandle n
    | None => NoValue
    end.
Proof.
  intros Hid Hinherited. unfold lookup_handle.
  destruct store as [m|]; [| done]. simpl.
  destruct (String.eqb_spec id "__proto__") as [? | _]; [done |].
  destruct (m !! id); [done |]. by rewrite Hinherited.
Qed.

(** The behaviour the claim C10 describes, for identifiers that are not
    names on the prototype chain of the handle object. *)
Lemma clear_web_fallback (env : Env) (store : option (gmap string WebNotification))
    (id : string) :
  chrome_notifications env ≫= cn_clear = None ->
  id <> "__proto__" -> inherited env store id = Absent ->
  (forall n, web_handle store id = Some n ->
     exists m, store = Some m /\
       clear env store id = (Resolved true, Some (delete id m), [CloseNotification n]) /\
       web_handle (Some (delete id m)) id = None) /\
  (web_handle store id = None -> clear env store id = (Resolved false, store, [])).
Proof.
  intros Habsent Hid Hinherited.
  rewrite clear_without_extension, lookup_handle_plain by done. split.
  - intros n Hn. destruct store as [m|]; [| done].
    exists m. rewrite Hn. simpl. repeat split. apply lookup_delete_eq.
  - by intros ->.
Qed.

Lemma clear_inherited_name_rejected_helper (env : Env) (m : gmap string WebNotification)
    (id : string) :
  chrome_notifications env ≫= cn_clear = None ->
  In id object_prototype_names ->
  m !! id = None ->
  exists message, clear env (Some m) id = (Rejected (TypeErrorObj message), Some m, []).
Proof.
  intros Habsent Hname Hm.
  rewrite clear_without_extension by done. unfold lookup_handle. rewrite Hm.
  assert (Hnames : existsb (String.eqb id) object_prototype_names = true).
  { apply existsb_exists. exists id. split; [done | apply String.eqb_refl]. }
  assert (Hid : String.eqb id "__proto__" = false).
  { apply String.eqb_neq. intros ->. simpl in Hname. intuition discriminate. }
  rewrite Hid. unfold inherited. rewrite Hnames.
  destruct (web_handle (Some m) "__proto__");
    [destruct (is_word id); [destruct (notification_member env id) |] |];
    by eexists.
Qed.

(** C10: the claim fails on the code for identifiers that name a member
    of [Object.prototype]. With a handle object in place that stores
    nothing under such an identifier, and without the extension API,
    [clear] finds the inherited member, fails to call its [close] and is
    rejected with a [TypeError], where the claim has it resolve false. *)
Theorem clear_inherited_name_rejected (env : Env) (m : gmap string WebNotification)
    (id : string) :
  chrome_notifications env ≫= cn_clear = None ->
  In id object_prototype_names ->
  m !! id = None ->
  web_handle (Some m) id = None /\
  exists message, clear env (Some m) id = (Rejected (TypeErrorObj message), Some m, []).
Proof.
  intros Habsent Hname Hm. split; [done |].
  by apply clear_inherited_name_rejected_helper.
Qed.

Lemma clear_inherited_name_rejected_witness :
  exists message,
    clear Sample.denied_page (Some {["n1" := Sample.tab_updated_handle]}) "constructor"
    = (Rejected (TypeErrorObj message), Some {["n1" := Sample.tab_updated_handle]}, []).
Proof.
  refine (proj2 (clear_inherited_name_rejected Sample.denied_page
                   {["n1" := Sample.tab_updated_handle]} "constructor" eq_refl _ _)).
  - simpl. tauto.
  - vm_compute. reflexivity.
Defined.

(** The same happens for [__proto__] as long as no notification has
    taken the place of the prototype; once one has, [clear] closes it
    and resolves true, yet it stays in place. *)
Lemma clear_prototype_slot (env : Env) (m : gmap string WebNotification) :
  chrome_notifications env ≫= cn_clear = None ->
  clear env (Some m) "__proto__"
  = match m !! "__proto__" with
    | Some n => (Resolved true, Some m, [CloseNotification n])
    | None => (Rejected not_closable, Some m, [])
    end.
Proof.
  intros Habsent. rewrite clear_without_extension by done.
  unfold lookup_handle. by destruct (m !! "__proto__").
Qed.

Lemma clear_web_fallback_witness :
  clear Sample.denied_page (Some {["n1" := Sample.tab_updated_handle]}) "n1"
  = (Resolved true, Some (delete "n1" {["n1" := Sample.tab_updated_handle]}),
     [CloseNotification Sample.tab_updated_handle]) /\
  clear Sample.denied_page (Some {["n1" := Sample.tab_updated_handle]}) "n2"
  = (Resolved false, Some {["n1" := Sample.tab_updated_handle]}, []).
Proof.
  split.
  - assert (Hstored : web_handle (Some {["n1" := Sample.tab_updated_handle]}) "n1"
                      = Some Sample.tab_updated_handle) by (vm_compute; reflexivity).
    destruct (proj1 (clear_web_fallback Sample.denied_page
                       (Some {["n1" := Sample.tab_updated_handle]}) "n1" eq_refl
                       ltac:(discriminate) ltac:(vm_compute; reflexivity))
                Sample.tab_updated_handle Hstored) as (m & Hm & Hclear & _).
    injection Hm as <-. exact Hclear.
  - apply (proj2 (clear_web_fallback Sample.denied_page
                    (Some {["n1" := Sample.tab_updated_handle]}) "n2" eq_refl
                    ltac:(discriminate) ltac:(vm_compute; reflexivity))).
    vm_compute. reflexivity.
Defined.

(** Other identifiers keep their handles. *)
Lemma clear_other (env : Env) (m : gmap string WebNotification) (id id' : string) :
  id <> id' ->
  web_handle (delete id <$> Some m) id' = web_handle (Some m) id'.
Proof. intros Hne. simpl. by apply lookup_delete_ne. Qed.

End NotificationsProperties.

Section IdentityProperties.
Import Js Web Identity.

Lemma truthy_str_false (o : option string) :
  truthy_str o = false <-> o = None \/ o = Some "".
Proof.
  destruct o as [[|a s]|]; simpl; split; try done; eauto.
  intros [H | H]; discriminate.
Qed.

Lemma truthy_str_true (o : option string) :
  truthy_str o = true <-> exists s, o = Some s /\ s <> "".
Proof.
  destruct o as [[|a s]|]; simpl; split; try done.
  - intros (s & H & Hne). by injection H as <-.
  - intros _. by eexists.
  - by intros (s & H & _).
Qed.

(** C4: [tokenCookie("set")] without a token, or with an empty one, is
    rejected with an error; a cookie is written only for "set" with a
    token, and with that token as its value; every cookie read or
    written is named "authToken". *)
Theorem tokenCookie_contract (v : Vendor) (operation : string) (token : option string) :
  (operation = "set" -> token = None \/ token = Some "" ->
   tokenCookie v operation token
   = (Rejected (ErrorObj "Invalid operation or missing token for set operation"), [])) /\
  (forall e, e ∈ (tokenCookie v operation token).2 -> is_cookie_write e = true ->
     operation = "set" /\
     exists url t, token = Some t /\ t <> "" /\ e = CookiesSet url "authToken" t) /\
  (forall e, e ∈ (tokenCookie v operation token).2 -> cookie_name e = Some "authToken").
Proof.
  unfold tokenCookie. split; [| split].
  - intros -> Htoken%truthy_str_false. simpl. by rewrite Htoken.
  - intros e He Hwrite.
    destruct (String.eqb_spec operation "get") as [_ | _].
    { destruct (window_location_href v); simpl in He; each_event He. }
    destruct (String.eqb_spec operation "set") as [-> | _]; simpl in He;
      [| each_event He].
    destruct (truthy_str token) eqn:Htoken; [| each_event He].
    apply truthy_str_true in Htoken as (t & -> & Hne).
    destruct (window_location_href v) as [href|]; simpl in He; each_event He.
    split; [done |]. by exists href, t.
  - intros e He.
    destruct (String.eqb operation "get").
    { destruct (window_location_href v); simpl in He; each_event He. }
    destruct (String.eqb operation "set" && truthy_str token);
      [destruct (window_location_href v) |]; simpl in He; each_event He.
Qed.

Lemma tokenCookie_contract_witness :
  tokenCookie Sample.cooperative "set" None
  = (Rejected (ErrorObj "Invalid operation or missing token for set operation"), []) /\
  cookie_name (CookiesSet "https://example.com/popup.html" "authToken" "t1")
  = Some "authToken".
Proof.
  split.
  - apply (proj1 (tokenCookie_contract Sample.cooperative "set" None));
      [reflexivity | left; reflexivity].
  - apply (proj2 (proj2 (tokenCookie_contract Sample.cooperative "set" (Some "t1")))).
    vm_compute. apply elem_of_cons. left. reflexivity.
Defined.

(** A "set" with a token, where a window exists, does write the cookie. *)
Lemma tokenCookie_set_writes (v : Vendor) (href t : string) :
  window_location_href v = Some href -> t <> "" ->
  (tokenCookie v "set" (Some t)).2 = [CookiesSet href "authToken" t].
Proof.
  intros Hhref Hne. unfold tokenCookie. simpl. rewrite Hhref.
  destruct t; [done | reflexivity].
Qed.




End IdentityProperties.

Section SignInProperties.
Import Js Web Identity.

(** [extractToken] on [null], on the empty string and on a URL without
    fragment. *)
Lemma extractToken_null (P : Platform) : extractToken P None = Normal None.
Proof. reflexivity. Qed.

Lemma extractToken_empty (P : Platform) : extractToken P (Some "") = Normal None.
Proof. reflexivity. Qed.


(** [redirectUrl || null] changes nothing for [extractToken]. *)
Lemma extractToken_or_null (P : Platform) (o : option string) :
  extractToken P (or_null o) = extractToken P o.
Proof. by destruct o as [[|a s]|]. Qed.




(** A redirect URL without access token in its fragment. *)
Example signIn_without_token :
  (signIn Sample.platform Sample.client
     {| window_location_href := None;
        cookies_get := fun _ _ => Sample.no_error None;
        cookies_set := fun _ _ _ => Sample.no_error None;
        getRedirectURL := "https://abc.chromiumapp.org/";
        launchWebAuthFlow := fun _ _ =>
          Sample.no_error (Some "https://abc.chromiumapp.org/#error=access_denied");
        getAuthToken := fun _ => Sample.no_error Sample.granted_token |}
     true ∅).1
  = (Rejected (ErrorObj "Failed to extract token"), ∅).
Proof. vm_compute. reflexivity. Qed.

End SignInProperties.

(** * Further properties of the detector and the side panel facade *)

Section DetectorDecision.
Import Js Detector.

Lemma regex_literal_test_false (p s : string) :
  regex_literal_test p s = false <-> ~ Occurs p s.
Proof.
  rewrite <- regex_literal_test_occurs.
  destruct (regex_literal_test p s); split; done.
Qed.

(** The name [getBrowserName] returns, decided by the brave global and by
    which of "Edg", "OPR" and "Chrome" occur in the user agent, in that
    order of precedence. *)
Theorem getBrowserName_decision (nav : Navigator) :
  (getBrowserName nav = "Brave" <-> truthy (brave nav) = true) /\
  (getBrowserName nav = "Edge" <->
     truthy (brave nav) = false /\ Occurs "Edg" (userAgent nav)) /\
  (getBrowserName nav = "Opera" <->
     truthy (brave nav) = false /\ ~ Occurs "Edg" (userAgent nav) /\
     Occurs "OPR" (userAgent nav)) /\
  (getBrowserName nav = "Chrome" <->
     truthy (brave nav) = false /\ ~ Occurs "Edg" (userAgent nav) /\
     ~ Occurs "OPR" (userAgent nav) /\ Occurs "Chrome" (userAgent nav)) /\
  (getBrowserName nav = "Unknown" <->
     truthy (brave nav) = false /\ ~ Occurs "Edg" (userAgent nav) /\
     ~ Occurs "OPR" (userAgent nav) /\ ~ Occurs "Chrome" (userAgent nav)).
Proof.
  rewrite <- !regex_literal_test_false, <- !regex_literal_test_occurs.
  unfold getBrowserName, is_chrome, is_brave, is_edge, is_opera.
  destruct (truthy (brave nav)), (regex_literal_test "Edg" (userAgent nav)),
    (regex_literal_test "OPR" (userAgent nav)),
    (regex_literal_test "Chrome" (userAgent nav)); simpl;
    intuition (discriminate || reflexivity).
Qed.

Lemma getBrowserName_decision_witness :
  getBrowserName Scenario.brave_on_linux = "Brave" /\
  getBrowserName Sample.edge_on_windows = "Edge".
Proof.
  split.
  - apply (proj1 (getBrowserName_decision Scenario.brave_on_linux)). reflexivity.
  - apply (proj1 (proj2 (getBrowserName_decision Sample.edge_on_windows))).
    split; [reflexivity |]. apply regex_literal_test_occurs. vm_compute. reflexivity.
Defined.

(** [Identity.isSubVendor] is the negation of [browser.is.chrome()]. *)
Theorem isSubVendor_not_chrome (nav : Navigator) :
  isSubVendor nav = negb (is_chrome nav).
Proof.
  unfold isSubVendor, getBrowserName, is_chrome, is_brave, is_edge, is_opera.
  destruct (truthy (brave nav)), (regex_literal_test "Edg" (userAgent nav)),
    (regex_literal_test "OPR" (userAgent nav)),
    (regex_literal_test "Chrome" (userAgent nav)); reflexivity.
Qed.

End DetectorDecision.

Section SidePanelMore.
Import Js SidePanel.

(** Each of [setOptions], [open] and [getOptions] makes at most one
    vendor call. *)
Theorem sidePanel_single_call (chrome : option Chrome) (options : Options)
    (openOptions getOptionsArg : option (option Z)) :
  length (List.filter is_vendor_call (setOptions chrome options).2) <= 1 /\
  length (List.filter is_vendor_call (open chrome openOptions).2) <= 1 /\
  length (List.filter is_vendor_call (getOptions chrome getOptionsArg).2) <= 1.
Proof.
  split; [| split].
  - unfold setOptions, not_a_function, chrome_undefined.
    repeat case_match; simpl; lia.
  - unfold open. destruct chrome as [c|]; simpl; [| lia].
    destruct (sidePanel c ≫= sp_open) as [f|].
    + destruct (truthy_windowId openOptions); destruct (f _) as [u | r |];
        simpl; try lia; destruct (instanceof_Error r); simpl; lia.
    + destruct (sidebarAction c ≫= sa_open); simpl; lia.
  - unfold getOptions, chrome_undefined. repeat case_match; simpl; lia.
Qed.

(** On the legacy sidebar API [setOptions] looks at [path] only: two
    option objects with the same path behave alike, and without a path,
    or with an empty one, nothing is called and nothing is logged. *)
Theorem setOptions_legacy_path_only (c : Chrome) (sa : SidebarActionApi)
    (o o' : Options) :
  sidePanel c = None -> sidebarAction c = Some sa ->
  (path o = path o' -> setOptions (Some c) o = setOptions (Some c) o') /\
  (path o = None \/ path o = Some "" -> setOptions (Some c) o = (Resolved tt, [])).
Proof.
  intros Hsp Hsa. unfold setOptions. rewrite Hsp, Hsa. split.
  - by intros ->.
  - by intros [-> | ->].
Qed.

Lemma setOptions_legacy_path_only_witness :
  setOptions (Some Scenario.legacy_only) {| enabled := Some false; path := None |}
  = (Resolved tt, []).
Proof.
  apply (proj2 (setOptions_legacy_path_only Scenario.legacy_only _
                  {| enabled := Some false; path := None |}
                  {| enabled := Some true; path := None |} eq_refl eq_refl)).
  left. reflexivity.
Defined.

(** [open] treats a [windowId] of 0 and a missing [windowId] like a call
    without options. *)
Theorem open_falsy_windowId (chrome : option Chrome) :
  open chrome (Some (Some 0%Z)) = open chrome None /\
  open chrome (Some None) = open chrome None.
Proof. by split. Qed.

(** [open] is rejected only with what the vendor's own [open] was
    rejected with; for the modern API the failure has been logged. *)
Theorem open_rejection_origin (chrome : option Chrome) (options : option (option Z))
    (r : Reason) :
  (open chrome options).1 = Rejected r ->
  exists c, chrome = Some c /\
    ((exists f, sidePanel c ≫= sp_open = Some f /\
        f (truthy_windowId options) = Rejected r /\
        Console LError "[Browser] chrome.sidePanel.open() failed:" ∈ (open chrome options).2) \/
     (sidePanel c ≫= sp_open = None /\ sidebarAction c ≫= sa_open = Some (Rejected r))).
Proof.
  destruct chrome as [c|]; [| done]. intros H. exists c. split; [done |].
  unfold open in *.
  destruct (sidePanel c ≫= sp_open) as [f|].
  - left. exists f. split; [done |].
    destruct (truthy_windowId options) as [w|]; simpl in *.
    + destruct (f (Some w)) as [u | r' |]; simpl in *; try done.
      injection H as ->. split; [done |]. set_solver.
    + destruct (f None) as [u | r' |]; simpl in *; try done.
      injection H as ->. split; [done |]. set_solver.
  - right. split; [done |].
    destruct (sidebarAction c ≫= sa_open) as [p|]; simpl in *; [by subst | done].
Qed.

Lemma open_rejection_origin_witness :
  exists c, Some Scenario.legacy_only = Some c /\
    ((exists f, sidePanel c ≫= sp_open = Some f /\
        f (truthy_windowId None) = Rejected (ErrorObj "no user gesture") /\
        Console LError "[Browser] chrome.sidePanel.open() failed:"
          ∈ (open (Some Scenario.legacy_only) None).2) \/
     (sidePanel c ≫= sp_open = None /\
      sidebarAction c ≫= sa_open = Some (Rejected (ErrorObj "no user gesture")))).
Proof.
  apply (open_rejection_origin (Some Scenario.legacy_only) None). reflexivity.
Defined.

(** [isAvailable] may answer true where [open] can do nothing: a side
    panel object without [open], and no sidebar action to fall back to. *)
Theorem isAvailable_without_open (c : Chrome) (sp : SidePanelApi)
    (options : option (option Z)) :
  sidePanel c = Some sp -> sp_open sp = None -> sidebarAction c ≫= sa_open = None ->
  isAvailable (Some c) = true /\
  open (Some c) options
  = (Resolved tt, [Console LLog "[Browser] sidePanel.open() called with options:";
                   Console LWarn "[Browser] Cannot open sidebar - API not available"]).
Proof.
  intros Hsp Hopen Hsa. unfold isAvailable, open. rewrite Hsp. simpl.
  by rewrite Hopen, Hsa.
Qed.

Lemma isAvailable_without_open_witness :
  isAvailable (Some Scenario.panel_without_open) = true /\
  (open (Some Scenario.panel_without_open) None).1 = Resolved tt.
Proof.
  destruct (isAvailable_without_open Scenario.panel_without_open _ None
              eq_refl eq_refl eq_refl) as [Havailable Hopen].
  split; [exact Havailable |]. by rewrite Hopen.
Defined.

End SidePanelMore.

(** * Further properties of the notifications facade *)

Section NotificationsMore.
Import Js Notifications Facade.

Lemma or_else_nonempty (o : option string) (d : string) :
  d <> "" -> or_else o d <> "".
Proof. intros Hd. unfold or_else. by destruct o as [[|a s]|]. Qed.

Lemma web_handle_insert (store : option (gmap string WebNotification))
    (id id' : string) (n : WebNotification) :
  web_handle (Some (<[id := n]> (default ∅ store))) id'
  = if decide (id = id') then Some n else web_handle store id'.
Proof.
  simpl. rewrite lookup_insert. case_decide; [done |].
  destruct store; [done | apply lookup_empty].
Qed.

Lemma web_handle_delete (store : option (gmap string WebNotification)) (id id' : string) :
  web_handle (delete id <$> store) id'
  = if decide (id = id') then None else web_handle store id'.
Proof.
  destruct store as [m|]; simpl; [| by case_decide].
  rewrite lookup_delete. by case_decide.
Qed.

(** Identifiers generated at different times differ. *)
Theorem create_id_distinct (o o' : NotificationOptions) (now now' : Z) :
  now <> now' -> create_id (inr o) now <> create_id (inr o') now'.
Proof.
  intros Hne Heq. simpl in Heq. apply Hne.
  injection Heq as Heq. by apply (inj pretty).
Qed.

Lemma create_id_distinct_witness :
  create_id (inr Sample.tab_updated) 1700000000000
  <> create_id (inr Sample.tab_updated) 1700000000001.
Proof. apply create_id_distinct. discriminate. Defined.

(** What one run of [create_from] does to the store: nothing, or one
    handle put under [id]; it closes no notification. *)
Lemma create_from_effect (fuel : nat) (env : Env) (round : nat)
    (store store' : option (gmap string WebNotification)) (id : string)
    (opts : option NotificationOptions) (p : Promise string) (trace : list Notifications.Event) :
  create_from fuel env round store id opts = Some (p, store', trace) ->
  (store' = store \/
   exists o, opts = Some o /\
     store' = Some (<[id := web_notification_of id o]> (default ∅ store))) /\
  (forall e, e ∈ trace -> is_close e = false).
Proof.
  revert round trace.
  induction fuel as [|fuel IH]; intros round trace; simpl; [done |].
  destruct (chrome_attempt env round id opts) as [notifId | tr] eqn:Hattempt.
  { intros [= <- <- <-]. split; [by left |]. intros e He. each_event He. }
  assert (Htr : forall e, e ∈ tr -> is_close e = false).
  { unfold chrome_attempt in Hattempt. intros e He.
    destruct (chrome_notifications env ≫= cn_create) as [f|];
      [destruct (f round id opts) |]; simplify_eq; each_event He. }
  assert (Hfall : forall e, e ∈ tr ++ [unavailable] -> is_close e = false).
  { intros e [He | He]%elem_of_app; [by apply Htr | each_event He]. }
  destruct (web_notification env) as [N|]; [| intros [= <- <- <-]; by split; [left |]].
  destruct (String.eqb (checkPermission env round) "granted").
  { destruct opts as [o|]; [| intros [= <- <- <-]; by split; [left |]].
    destruct (construct N (web_notification_of id o));
      [intros [= <- <- <-]; by split; [left |] |].
    assert (Hbuilt : forall e, e ∈ tr ++ [NewNotification (web_notification_of id o)] ->
              is_close e = false).
    { intros e [He | He]%elem_of_app; [by apply Htr | each_event He]. }
    destruct (assignable env store id) eqn:Hw; intros [= <- <- <-].
    - split; [right; by exists o | done].
    - split; [left | done]. destruct store; [done |].
      by rewrite assignable_undefined in Hw. }
  destruct (String.eqb (checkPermission env round) "default");
    [| intros [= <- <- <-]; by split; [left |]].
  destruct (requestPermission env round) as [newPermission asked] eqn:Hreq.
  assert (Hasked : forall e, e ∈ asked -> is_close e = false).
  { unfold requestPermission in Hreq. intros e He.
    destruct (web_notification env); simplify_eq; each_event He. }
  assert (Htr' : forall e,
            e ∈ tr ++ Console LWarn "[Browser] Notification permission not granted. Requesting..."
                        :: asked -> is_close e = false).
  { intros e [He | He]%elem_of_app; [by apply Htr |].
    apply elem_of_cons in He as [-> | He]; [done | by apply Hasked]. }
  destruct (String.eqb newPermission "granted").
  - destruct (create_from fuel env (S round) store id opts)
      as [[[p' store''] tr2]|] eqn:Hrec; [| done].
    intros [= <- <- <-]. destruct (IH _ _ Hrec) as [Hstore Hclose].
    split; [done |]. intros e [He | He]%elem_of_app; [by apply Htr' | by apply Hclose].
  - intros [= <- <- <-]. split; [by left |].
    intros e [He | He]%elem_of_app; [by apply Htr' | each_event He].
Qed.

(** [create] keeps every other identifier's handle, and never closes a
    notification: creating under an identifier already in use replaces
    the stored handle and leaves the old notification open. *)
Theorem create_frame (fuel : nat) (env : Env)
    (store store' : option (gmap string WebNotification))
    (notificationId : string + NotificationOptions)
    (options : option NotificationOptions) (now : Z)
    (p : Promise string) (trace : list Notifications.Event) :
  create fuel env store notificationId options now = Some (p, store', trace) ->
  (forall id', id' <> create_id notificationId now ->
     web_handle store' id' = web_handle store id') /\
  (forall e, e ∈ trace -> is_close e = false).
Proof.
  intros [[-> | (o & _ & ->)] Hclose]%create_from_effect; split; try done.
  intros id' Hne. rewrite web_handle_insert. by case_decide.
Qed.

Lemma create_frame_witness :
  web_handle (Some (<["n2" := web_notification_of "n2" Sample.tab_updated]>
                      (default ∅ (Some {["n1" := Sample.tab_updated_handle]})))) "n1"
  = web_handle (Some {["n1" := Sample.tab_updated_handle]}) "n1".
Proof.
  refine (proj1 (create_frame 1 Scenario.granted_page
                   (Some {["n1" := Sample.tab_updated_handle]}) _
                   (inl "n2") (Some Sample.tab_updated) 0
                   (Resolved "n2")
                   [NewNotification (web_notification_of "n2" Sample.tab_updated)] _) "n1" _).
  - reflexivity.
  - discriminate.
Defined.

(** The store invariant, every handle under its own tag and with a
    title, is kept by [create] and by [clear]. *)
Theorem well_tagged_kept (fuel : nat) (env : Env)
    (store store' : option (gmap string WebNotification))
    (notificationId : string + NotificationOptions)
    (options : option NotificationOptions) (now : Z)
    (p : Promise string) (trace : list Notifications.Event) (id : string) :
  well_tagged store ->
  (create fuel env store notificationId options now = Some (p, store', trace) ->
   well_tagged store') /\
  well_tagged (clear env store id).1.2.
Proof.
  intros Hstore. split.
  - intros [[-> | (o & _ & ->)] _]%create_from_effect; [done |].
    intros id' n. rewrite web_handle_insert. case_decide as Hid.
    + intros [= <-]. split; [done | by apply or_else_nonempty].
    + apply Hstore.
  - unfold clear.
    assert (Hweb : forall tr,
              well_tagged (match lookup_handle env store id with
                           | OwnHandle n => (Resolved true, delete id <$> store,
                                             tr ++ [CloseNotification n])
                           | PrototypeHandle n =>
                               (Resolved true, store, tr ++ [CloseNotification n])
                           | NoValue => (Resolved false, store, tr)
                           | NoNotification r => (Rejected r, store, tr)
                           end).1.2).
    { intros tr. destruct (lookup_handle env store id); try done. simpl.
      intros id' n'. rewrite web_handle_delete. case_decide; [done | apply Hstore]. }
    destruct (chrome_notifications env ≫= cn_clear) as [f|]; [| apply Hweb].
    destruct (f id); [done | apply Hweb].
Qed.

Lemma well_tagged_kept_witness :
  well_tagged (Some {["n1" := Sample.tab_updated_handle]}) /\
  well_tagged (clear Scenario.granted_page None "n1").1.2.
Proof.
  assert (Hempty : well_tagged None) by (intros id n H; discriminate H).
  split.
  - apply (proj1 (well_tagged_kept 1 Scenario.granted_page None
                     (Some {["n1" := Sample.tab_updated_handle]})
                     (inl "n1") (Some Sample.tab_updated) 0 (Resolved "n1")
                     [NewNotification Sample.tab_updated_handle] "n1" Hempty)).
    vm_compute. reflexivity.
  - apply (proj2 (well_tagged_kept 1 Scenario.granted_page None None
                     (inl "n1") (Some Sample.tab_updated) 0 (Resolved "n1") [] "n1" Hempty)).
Defined.

End NotificationsMore.

Section NotificationsRoundTrips.
Import Js Notifications Facade.



(** The web fallback with permission granted, one step of [create_from]. *)
Lemma create_from_web (fuel : nat) (env : Env) (round : nat)
    (store : option (gmap string WebNotification)) (id : string)
    (o : NotificationOptions) (N : NotificationGlobal) :
  chrome_notifications env = None ->
  web_notification env = Some N ->
  permission N round = "granted" ->
  construct N (web_notification_of id o) = None ->
  assignable env store id = true ->
  create_from (S fuel) env round store id (Some o)
  = Some (Resolved id, Some (<[id := web_notification_of id o]> (default ∅ store)),
          [NewNotification (web_notification_of id o)]).
Proof.
  intros Hchrome HN Hgranted Hctor Hw.
  apply (create_from_granted fuel env round store id o N []); try done.
  - unfold chrome_attempt. by rewrite Hchrome.
  - unfold checkPermission. by rewrite Hchrome, HN.
Qed.



(** One run of [create_from] that asks for permission and is granted it:
    the warning, the request, then whatever the next run does. *)
Lemma create_from_prompt_step (fuel : nat) (env : Env) (round : nat)
    (store : option (gmap string WebNotification)) (id : string)
    (opts : option NotificationOptions) (N : NotificationGlobal) :
  chrome_notifications env = None ->
  web_notification env = Some N ->
  permission N round = "default" ->
  requestPermission_answer N round = "granted" ->
  create_from (S fuel) env round store id opts
  = match create_from fuel env (S round) store id opts with
    | Some (p, store', tr2) =>
        Some (p, store',
              [Console LWarn "[Browser] Notification permission not granted. Requesting...";
               CallRequestPermission] ++ tr2)
    | None => None
    end.
Proof.
  intros Hchrome HN Hdefault Hanswer. simpl.
  unfold chrome_attempt, checkPermission, requestPermission.
  rewrite Hchrome, HN, Hdefault, Hanswer. reflexivity.
Qed.



(** If the permission keeps reading "default" while every request is
    answered "granted", [create] calls itself again and again and never
    settles: no amount of fuel yields a result. *)
Theorem create_never_settles (fuel : nat) (env : Env) (N : NotificationGlobal)
    (round : nat) (store : option (gmap string WebNotification)) (id : string)
    (opts : option NotificationOptions) :
  chrome_notifications env = None ->
  web_notification env = Some N ->
  (forall r, permission N r = "default") ->
  (forall r, requestPermission_answer N r = "granted") ->
  create_from fuel env round store id opts = None.
Proof.
  intros Hchrome HN Hdefault Hanswer. revert round.
  induction fuel as [|fuel IH]; intros round; [done |].
  rewrite (create_from_prompt_step fuel env round store id opts N) by done.
  by rewrite IH.
Qed.

Lemma create_never_settles_witness :
  create_from 5 Scenario.stuck_page 0 None "n1" (Some Sample.tab_updated) = None.
Proof.
  refine (create_never_settles 5 Scenario.stuck_page Scenario.stuck_notification
            0 None "n1" (Some Sample.tab_updated)
            eq_refl eq_refl (fun _ => eq_refl) (fun _ => eq_refl)).
Defined.

(** Once a notification has taken the place of the prototype, an
    identifier that names one of its attributes cannot be stored: the
    assignment throws and [create] is rejected. *)
Lemma create_on_replaced_prototype_rejected :
  create 1 Scenario.granted_page Scenario.replaced_store (inl "onclick")
    (Some Sample.tab_updated) 0
  = Some (Rejected illegal_invocation, Scenario.replaced_store,
          [NewNotification (web_notification_of "onclick" Sample.tab_updated)]).
Proof. vm_compute. reflexivity. Qed.



End NotificationsRoundTrips.

Section FacadeCallers.
Import Js Notifications Facade.



(** Without the extension API and without web permission, [update]
    still resolves true, although afterwards no notification is stored
    under the identifier: one that was there has been closed and removed.
    This holds for an identifier that is not a name on the prototype
    chain of the handle object. *)
Theorem update_true_without_notification (fuel : nat) (env : Env)
    (chrome_update : option (string -> NotificationOptions -> UpdateReply))
    (store : option (gmap string WebNotification)) (id : string)
    (options : NotificationOptions) :
  chrome_notifications env = None ->
  ~ web_permission_granted env 0 ->
  id <> "__proto__" ->
  inherited env store id = Absent ->
  exists store' trace,
    update (S fuel) env chrome_update store id options = Some (Resolved true, store', trace) /\
    web_handle store' id = None /\
    (forall e, e ∈ trace -> forall n, e <> Inner (NewNotification n)).
Proof.
  intros Hchrome Hweb Hid Hplain. unfold update. rewrite Hchrome.
  cbn [mbind option_bind].
  rewrite clear_without_extension, lookup_handle_plain by (done || by rewrite Hchrome).
  assert (Hrun : forall st, exists tr,
             create_from (S fuel) env 0 st id (Some options)
             = Some (Resolved id, st, tr ++ [unavailable]) /\
             forall e, e ∈ tr -> forall n, e <> NewNotification n).
  { intros st. simpl. unfold chrome_attempt. rewrite Hchrome. cbn [mbind option_bind].
    destruct (web_notification env) as [N|] eqn:HN.
    2:{ exists []. split; [done |]. intros e He. each_event He. }
    unfold checkPermission, requestPermission. rewrite Hchrome, HN.
    destruct (String.eqb_spec (permission N 0) "granted") as [Hg | _].
    { destruct Hweb. exists N. split; [done | by left]. }
    destruct (String.eqb_spec (permission N 0) "default") as [Hd | _].
    2:{ exists []. split; [done |]. intros e He. each_event He. }
    destruct (String.eqb_spec (requestPermission_answer N 0) "granted") as [Hg | _].
    { destruct Hweb. exists N. split; [done | by right]. }
    eexists. split; [reflexivity |]. intros e He n.
    simpl in He. each_event He. }
  destruct (web_handle store id) as [old|] eqn:Hold.
  - destruct (Hrun (delete id <$> store)) as (tr & -> & Htr).
    eexists _, _. split; [reflexivity |]. split.
    + rewrite web_handle_delete. by case_decide.
    + intros e He n ->. simpl in He.
      apply elem_of_cons in He as [He | He]; [done |].
      apply list_elem_of_fmap in He as (e' & [= <-] & He').
      apply elem_of_app in He' as [He' | He']; [by apply (Htr _ He' n) |].
      by apply list_elem_of_singleton in He'.
  - destruct (Hrun store) as (tr & -> & Htr).
    eexists _, _. split; [reflexivity |]. split; [done |].
    intros e He n ->. simpl in He.
    apply list_elem_of_fmap in He as (e' & [= <-] & He').
    apply elem_of_app in He' as [He' | He']; [by apply (Htr _ He' n) |].
    by apply list_elem_of_singleton in He'.
Qed.

Lemma update_true_without_notification_witness :
  exists store' trace,
    update 1 Sample.denied_page None (Some {["n1" := Sample.tab_updated_handle]}) "n1"
      Sample.tab_updated = Some (Resolved true, store', trace) /\
    web_handle store' "n1" = None /\
    (forall e, e ∈ trace -> forall n, e <> Inner (NewNotification n)).
Proof.
  refine (update_true_without_notification 0 Sample.denied_page None
            (Some {["n1" := Sample.tab_updated_handle]}) "n1" Sample.tab_updated
            eq_refl _ _ _).
  - intros (N & [= <-] & [H | [H _]]); vm_compute in H; discriminate.
  - discriminate.
  - vm_compute. reflexivity.
Defined.

(** Where [clear] is rejected, on an identifier that names a member of
    [Object.prototype] and is not stored, [update] is rejected with the
    same error before it creates anything. *)
Lemma update_inherited_name_rejected (fuel : nat) (env : Env)
    (chrome_update : option (string -> NotificationOptions -> UpdateReply))
    (m : gmap string WebNotification) (id : string) (options : NotificationOptions) :
  chrome_notifications env = None ->
  In id object_prototype_names ->
  m !! id = None ->
  exists message,
    update fuel env chrome_update (Some m) id options
    = Some (Rejected (TypeErrorObj message), Some m, []).
Proof.
  intros Hchrome Hname Hm. unfold update. rewrite Hchrome. cbn [mbind option_bind].
  assert (Habsent : chrome_notifications env ≫= cn_clear = None) by by rewrite Hchrome.
  destruct (clear_inherited_name_rejected_helper env m id Habsent Hname Hm) as [message ->].
  by exists message.
Qed.

(** [showNotification] is never rejected as long as the [Notification]
    constructor does not throw: whenever it settles, it resolves. *)
Theorem showNotification_never_rejects (fuel : nat) (env : Env)
    (store store' : option (gmap string WebNotification))
    (title message : string) (iconUrl : option string) (now : Z)
    (p : Promise string) (trace : list Notifications.Event) :
  (forall N n, web_notification env = Some N -> construct N n = None) ->
  showNotification fuel env store title message iconUrl now = Some (p, store', trace) ->
  exists notifId, p = Resolved notifId.
Proof.
  intros Hctor Hrun.
  destruct (create_from_resolved fuel env 0 store store' _ _ p trace Hctor
              (assignable_generated env store now) Hrun)
    as (notifId & -> & _).
  by exists notifId.
Qed.

Lemma showNotification_never_rejects_witness :
  exists notifId, Resolved "notif-1700000000000" = Resolved notifId.
Proof.
  refine (showNotification_never_rejects 1 Sample.denied_page None None
            "Clean Copy URL" "No valid URL found to copy." None 1700000000000
            (Resolved "notif-1700000000000") [unavailable] _ _).
  - intros N n [= <-]. reflexivity.
  - vm_compute. reflexivity.
Defined.

(** The tab listener does nothing unless the status is "complete" and
    the tab has a non-empty URL. *)
Theorem onTabUpdated_ignores (fuel : nat) (env : Env)
    (store : option (gmap string WebNotification)) (status url : option string) (now : Z) :
  status <> Some "complete" \/ url = None \/ url = Some "" ->
  onTabUpdated fuel env store status url now = Some (store, []).
Proof.
  unfold onTabUpdated. intros [Hstatus | [-> | ->]].
  - destruct status as [st|], url as [u|]; try done.
    destruct (String.eqb_spec st "complete") as [-> | _]; done.
  - by destruct status.
  - destruct status; [| done]. simpl. by rewrite andb_false_r.
Qed.

Lemma onTabUpdated_ignores_witness :
  onTabUpdated 0 Scenario.granted_page None (Some "loading") (Some "https://example.com/") 0
  = Some (None, []).
Proof. apply onTabUpdated_ignores. left. discriminate. Defined.

(** Two tabs completing within the same millisecond get the same
    notification identifier: the second notification takes the place of
    the first in the store, and the first is never closed. *)
Theorem onTabUpdated_same_millisecond (fuel fuel' : nat) (env : Env)
    (N : NotificationGlobal) (store : option (gmap string WebNotification))
    (u1 u2 : string) (now : Z) :
  chrome_notifications env = None ->
  web_notification env = Some N ->
  permission N 0 = "granted" ->
  (forall n, construct N n = None) ->
  u1 <> "" -> u2 <> "" ->
  let key := "notif-" +:+ pretty now in
  let n1 := web_notification_of key (tab_updated_options u1) in
  let n2 := web_notification_of key (tab_updated_options u2) in
  onTabUpdated (S fuel) env store (Some "complete") (Some u1) now
  = Some (Some (<[key := n1]> (default ∅ store)),
          [Console LLog "Tab updated:"; NewNotification n1]) /\
  onTabUpdated (S fuel') env (Some (<[key := n1]> (default ∅ store)))
    (Some "complete") (Some u2) now
  = Some (Some (<[key := n2]> (default ∅ store)),
          [Console LLog "Tab updated:"; NewNotification n2]).
Proof.
  intros Hchrome HN Hgranted Hctor Hu1 Hu2 key n1 n2.
  unfold onTabUpdated, create. cbn [create_id create_opts].
  change ("complete" =? "complete")%string with true.
  destruct u1 as [|a1 u1]; [done |]. destruct u2 as [|a2 u2]; [done |].
  cbn [is_empty negb andb]. fold key.
  rewrite !(create_from_web _ env 0 _ key _ N) by (done || apply assignable_generated).
  split; [done |]. cbn [from_option id]. by rewrite insert_insert_eq.
Qed.

Lemma onTabUpdated_same_millisecond_witness :
  onTabUpdated 1 Scenario.granted_page
    (Some (<["notif-" +:+ pretty 5%Z :=
               web_notification_of ("notif-" +:+ pretty 5%Z)
                 (tab_updated_options "https://a.example/")]> (default ∅ None)))
    (Some "complete") (Some "https://b.example/") 5
  = Some (Some (<["notif-" +:+ pretty 5%Z :=
                    web_notification_of ("notif-" +:+ pretty 5%Z)
                      (tab_updated_options "https://b.example/")]> (default ∅ None)),
          [Console LLog "Tab updated:";
           NewNotification (web_notification_of ("notif-" +:+ pretty 5%Z)
                              (tab_updated_options "https://b.example/"))]).
Proof.
  refine (proj2 (onTabUpdated_same_millisecond 0 0 Scenario.granted_page _ None
                   "https://a.example/" "https://b.example/" 5
                   eq_refl eq_refl eq_refl (fun _ => eq_refl) _ _)); discriminate.
Defined.

End FacadeCallers.

(** * Further properties of the identity shim *)

Section IdentityMore.
Import Js Web Identity.

(** What [signIn] leaves in local storage: the storage it found, or that
    storage with "authToken" set. *)
Lemma signIn_storage (P : Platform) (api : ChromeIdentityApi) (v : Vendor)
    (interactive : bool) (ls : gmap string string) :
  (signIn P api v interactive ls).1.2 = ls \/
  exists t, (signIn P api v interactive ls).1.1 = Resolved tt /\
            (signIn P api v interactive ls).1.2 = <["authToken" := t]> ls.
Proof.
  unfold signIn.
  destruct (lastError (launchWebAuthFlow v (auth_url P api v) interactive)); [by left |].
  destruct (extractToken P _) as [tok | r]; [| by left].
  destruct (truthy_str tok); [| by left].
  destruct (lastError (getAuthToken v false)); [by left |].
  destruct (token_property _) as [t | r]; [| by left].
  right. by eexists.
Qed.

(** [signIn] and [signOut] touch no key of local storage other than
    "authToken", and [signIn] writes only when it resolves. *)
Theorem identity_storage_frame (P : Platform) (api : ChromeIdentityApi) (v : Vendor)
    (interactive : bool) (ls : gmap string string) :
  (forall k, k <> "authToken" ->
     (signIn P api v interactive ls).1.2 !! k = ls !! k /\
     (signOut v ls).1.2 !! k = ls !! k) /\
  ((signIn P api v interactive ls).1.1 <> Resolved tt ->
   (signIn P api v interactive ls).1.2 = ls).
Proof.
  split.
  - intros k Hk. split.
    + destruct (signIn_storage P api v interactive ls) as [-> | (t & _ & ->)]; [done |].
      by rewrite lookup_insert_ne.
    + unfold signOut. destruct (lastError (getAuthToken v true)); [done |]. simpl.
      destruct (truthy_arg _); [| done]. by rewrite lookup_delete_ne.
  - intros Hunresolved.
    by destruct (signIn_storage P api v interactive ls) as [-> | (t & Hresolved & _)].
Qed.

Lemma identity_storage_frame_witness :
  (signIn Sample.platform Sample.client Sample.cooperative true {["theme" := "dark"]}).1.2
    !! "theme" = Some "dark" /\
  (signIn Sample.platform Sample.client Sample.refusing true {["theme" := "dark"]}).1.2
  = {["theme" := "dark"]}.
Proof.
  split.
  - refine (eq_trans (proj1 (proj1 (identity_storage_frame Sample.platform Sample.client
              Sample.cooperative true {["theme" := "dark"]}) "theme" _)) _).
    + discriminate.
    + vm_compute. reflexivity.
  - apply (proj2 (identity_storage_frame Sample.platform Sample.client
                    Sample.refusing true {["theme" := "dark"]})).
    vm_compute. discriminate.
Defined.

(** Signing out after signing in, with a token returned and no error on
    sign-out, leaves local storage without "authToken" and otherwise as it
    was before the sign-in, however the sign-in went. *)
Theorem signIn_then_signOut (P : Platform) (api : ChromeIdentityApi) (v v' : Vendor)
    (interactive : bool) (ls : gmap string string) :
  lastError (getAuthToken v' true) = None ->
  truthy_arg (arg (getAuthToken v' true)) = true ->
  (signOut v' (signIn P api v interactive ls).1.2).1
  = (Resolved tt, delete "authToken" ls).
Proof.
  intros Hok Htoken. unfold signOut. rewrite Hok, Htoken. simpl. f_equal.
  destruct (signIn_storage P api v interactive ls) as [-> | (t & _ & ->)]; [done |].
  apply delete_insert_eq.
Qed.

Lemma signIn_then_signOut_witness :
  (signOut Sample.cooperative
     (signIn Sample.platform Sample.client Sample.cooperative true {["theme" := "dark"]}).1.2).1
  = (Resolved tt, delete "authToken" {["theme" := "dark"]}).
Proof.
  refine (signIn_then_signOut Sample.platform Sample.client Sample.cooperative
            Sample.cooperative true {["theme" := "dark"]} eq_refl eq_refl).
Defined.

(** [signIn] launches the web auth flow once, with the flag it was
    given, and calls [getAuthToken] at most once afterwards, never
    interactively, and only when a non-empty access token was extracted. *)
Theorem signIn_trace (P : Platform) (api : ChromeIdentityApi) (v : Vendor)
    (interactive : bool) (ls : gmap string string) :
  let flow := launchWebAuthFlow v (auth_url P api v) interactive in
  let launched := LaunchWebAuthFlow (auth_url P api v) interactive in
  let trace := (signIn P api v interactive ls).2 in
  (trace = [launched] \/ trace = [launched; GetAuthToken false]) /\
  (GetAuthToken false ∈ trace <->
   lastError flow = None /\
   exists tok, extractToken P (arg flow) = Normal (Some tok) /\ tok <> "").
Proof.
  intros flow launched trace. unfold trace, signIn. fold flow. fold launched.
  rewrite extractToken_or_null.
  assert (Hnot : ~ GetAuthToken false ∈ [launched]).
  { intros H. by apply list_elem_of_singleton in H. }
  destruct (lastError flow) as [e|]; simpl.
  { split; [by left |]. split; [done | by intros [? _]]. }
  destruct (extractToken P (arg flow)) as [[[|a tok]|] | r]; simpl;
    try (split; [by left |]; split; [done | intros [_ (t & ? & ?)]; by simplify_eq]).
  assert (Hin : GetAuthToken false ∈ [launched; GetAuthToken false]) by set_solver.
  assert (Hwhy : @None LastError = None /\
            exists tok' : string,
              @Normal (option string) (Some (String a tok)) = Normal (Some tok') /\ tok' <> "").
  { split; [done |]. by eexists. }
  destruct (lastError (getAuthToken v false)); simpl; [by split; [right |] |].
  destruct (token_property (arg (getAuthToken v false))); simpl; by split; [right |].
Qed.

Lemma signIn_trace_witness :
  GetAuthToken false
    ∈ (signIn Sample.platform Sample.client Sample.cooperative true ∅).2.
Proof.
  apply (proj2 (signIn_trace Sample.platform Sample.client Sample.cooperative true ∅)).
  split; [reflexivity |]. exists "ya29.fresh". split; [vm_compute; reflexivity | discriminate].
Defined.

(** The promise of [signIn] stays unsettled in exactly two cases, both a
    callback that throws: a redirect URL that is not a URL, and an auth
    token callback that receives nothing. *)
Theorem signIn_pending_iff (P : Platform) (api : ChromeIdentityApi) (v : Vendor)
    (interactive : bool) (ls : gmap string string) :
  let flow := launchWebAuthFlow v (auth_url P api v) interactive in
  let answer := getAuthToken v false in
  (signIn P api v interactive ls).1.1 = Pending <->
  lastError flow = None /\
  ((exists s, arg flow = Some s /\ s <> "" /\ URL_new P s = None) \/
   (exists tok, extractToken P (arg flow) = Normal (Some tok) /\ tok <> "" /\
      lastError answer = None /\ arg answer = ArgUndefined)).
Proof.
  intros flow answer. unfold signIn. fold flow. fold answer.
  rewrite extractToken_or_null.
  destruct (lastError flow) as [e|]; simpl; [split; [done | by intros [? _]] |].
  unfold extractToken.
  destruct (arg flow) as [[|a s]|]; simpl.
  - split; [done |]. intros [_ [(s & ? & ? & ?) | (tok & ? & ?)]]; simplify_eq.
  - destruct (URL_new P (String a s)) as [u|] eqn:Hu; simpl.
    + destruct (if negb (is_empty (hash u)) then _ else None) as [[|b tok]|] eqn:Htok;
        simpl.
      * split; [done |]. intros [_ [(s' & ? & ? & ?) | (t & ? & ? & ?)]]; simplify_eq.
      * destruct (lastError answer) as [e|] eqn:He; simpl.
        { split; [done |]. intros [_ [(s' & ? & ? & ?) | (t & ? & ? & ? & ?)]]; simplify_eq. }
        destruct (arg answer) as [| s' | r] eqn:Harg; simpl.
        -- split; [| done]. intros _. split; [done |]. right. by eexists.
        -- split; [done |]. intros [_ [(s'' & ? & ? & ?) | (t & ? & ? & ? & ?)]]; simplify_eq.
        -- split; [done |]. intros [_ [(s'' & ? & ? & ?) | (t & ? & ? & ? & ?)]]; simplify_eq.
      * split; [done |]. intros [_ [(s' & ? & ? & ?) | (t & ? & ? & ?)]]; simplify_eq.
    + split; [| done]. intros _. split; [done |]. left. by exists (String a s).
  - split; [done |]. intros [_ [(s & ? & ? & ?) | (tok & ? & ?)]]; simplify_eq.
Qed.

Lemma signIn_pending_iff_witness :
  (signIn Sample.platform Sample.client Scenario.garbled_vendor true ∅).1.1 = Pending.
Proof.
  apply (proj2 (signIn_pending_iff Sample.platform Sample.client
                  Scenario.garbled_vendor true ∅)).
  split; [reflexivity |]. left. exists "not a url".
  split; [reflexivity |]. split; [discriminate | vm_compute; reflexivity].
Defined.

(** When the auth token callback receives the token as a plain string,
    or a result without token, a sign-in that succeeds stores the empty
    string: what is stored is [tokenResponse.token], not the access token
    taken from the redirect URL. *)
Theorem signIn_stores_empty (P : Platform) (api : ChromeIdentityApi) (v : Vendor)
    (interactive : bool) (ls : gmap string string) (tok : string) :
  let flow := launchWebAuthFlow v (auth_url P api v) interactive in
  let answer := getAuthToken v false in
  lastError flow = None ->
  extractToken P (arg flow) = Normal (Some tok) -> tok <> "" ->
  lastError answer = None ->
  (exists s, arg answer = ArgString s) \/
  (exists r, arg answer = ArgResult r /\ (token r = None \/ token r = Some "")) ->
  (signIn P api v interactive ls).1 = (Resolved tt, <["authToken" := ""]> ls).
Proof.
  intros flow answer Hflow Htok Hne Hanswer Hshape.
  unfold signIn. fold flow. fold answer.
  rewrite extractToken_or_null, Hflow, Htok, Hanswer.
  destruct tok; [done |]. simpl.
  destruct Hshape as [(s & ->) | (r & -> & [Hr | Hr])]; simpl; by rewrite ?Hr.
Qed.

Lemma signIn_stores_empty_witness :
  (signIn Sample.platform Sample.client Scenario.string_token_vendor true ∅).1
  = (Resolved tt, <["authToken" := ""]> ∅).
Proof.
  refine (signIn_stores_empty Sample.platform Sample.client Scenario.string_token_vendor
            true ∅ "ya29.fresh" eq_refl _ _ eq_refl _).
  - vm_compute. reflexivity.
  - discriminate.
  - left. by exists "ya29.plain".
Defined.

End IdentityMore.

Section TokenCookieMore.
Import Js Web Identity.

(** [tokenCookie] contacts the vendor, once, exactly when a window exists
    and the call is a "get" or a "set" with a non-empty token; in every
    other case it is rejected without any vendor call. *)
Theorem tokenCookie_contacts_vendor_iff (v : Vendor) (operation : string)
    (token : option string) :
  length (tokenCookie v operation token).2 <= 1 /\
  ((tokenCookie v operation token).2 <> [] <->
   is_Some (window_location_href v) /\
   (operation = "get" \/
    (operation = "set" /\ exists t, token = Some t /\ t <> ""))) /\
  ((tokenCookie v operation token).2 = [] ->
   exists r, (tokenCookie v operation token).1 = Rejected r).
Proof.
  unfold tokenCookie, no_window.
  destruct (String.eqb_spec operation "get") as [-> | Hget].
  { destruct (window_location_href v) as [href|]; simpl.
    - repeat split; eauto. done.
    - repeat split; try lia; try done; eauto. by intros [[? ?] _]. }
  destruct (String.eqb_spec operation "set") as [-> | Hset]; simpl.
  - destruct (truthy_str token) eqn:Htoken.
    + apply truthy_str_true in Htoken as (t & -> & Hne).
      destruct (window_location_href v) as [href|]; simpl.
      * repeat split; eauto. done.
      * repeat split; try lia; try done; eauto. by intros [[? ?] _].
    + apply truthy_str_false in Htoken.
      repeat split; try lia; try done; eauto.
      intros [_ [? | [_ (t & -> & Hne)]]]; [done |]. by destruct Htoken as [? | [= ->]].
  - repeat split; try lia; try done; eauto. by intros [_ [? | [? _]]].
Qed.

Lemma tokenCookie_contacts_vendor_iff_witness :
  (tokenCookie Sample.cooperative "get" None).2 <> [] /\
  exists r, (tokenCookie Sample.cooperative "delete" (Some "t1")).1 = Rejected r.
Proof.
  split.
  - apply (proj2 (proj1 (proj2 (tokenCookie_contacts_vendor_iff Sample.cooperative "get" None)))).
    split; [by eexists | by left].
  - apply (proj2 (proj2 (tokenCookie_contacts_vendor_iff Sample.cooperative "delete"
                           (Some "t1")))).
    reflexivity.
Defined.

(** [tokenCookie] resolves only with what the vendor answered without
    error: the value of the cookie, or the empty string when the vendor
    hands back no cookie or one with an empty value, which "get" cannot
    tell apart. *)
Theorem tokenCookie_resolved (v : Vendor) (operation : string) (token : option string)
    (s : string) :
  (tokenCookie v operation token).1 = Resolved s ->
  exists href reply,
    window_location_href v = Some href /\
    lastError reply = None /\
    s = or_else (cookie_value <$> arg reply) "" /\
    (s = "" <-> arg reply = None \/ arg reply = Some {| cookie_value := "" |}) /\
    ((operation = "get" /\ reply = cookies_get v href "authToken") \/
     (operation = "set" /\ exists t, token = Some t /\ t <> "" /\
        reply = cookies_set v href "authToken" t)).
Proof.
  assert (Hvalue : forall reply : Reply (option Cookie),
            or_else (cookie_value <$> arg reply) "" = "" <->
            arg reply = None \/ arg reply = Some {| cookie_value := "" |}).
  { intros reply. destruct (arg reply) as [[[|a c]]|]; simpl; split; try done; eauto.
    intros [? | ?]; done. }
  assert (Hcallback : forall reply, cookie_callback reply = Resolved s ->
            lastError reply = None /\ s = or_else (cookie_value <$> arg reply) "").
  { intros reply. unfold cookie_callback. destruct (lastError reply); [done |].
    by intros [= <-]. }
  unfold tokenCookie, no_window.
  destruct (String.eqb_spec operation "get") as [-> | Hget].
  { destruct (window_location_href v) as [href|]; simpl; [| done].
    intros [He ->]%Hcallback. eexists href, _. repeat split; eauto; by apply Hvalue. }
  destruct (String.eqb_spec operation "set") as [-> | Hset]; simpl; [| done].
  destruct (truthy_str token) eqn:Htoken; [| done].
  apply truthy_str_true in Htoken as (t & -> & Hne).
  destruct (window_location_href v) as [href|]; simpl; [| done].
  intros [He ->]%Hcallback. eexists href, _. repeat split; eauto; try by apply Hvalue.
  right. split; [done |]. by exists t.
Qed.

Lemma tokenCookie_resolved_witness :
  exists href reply,
    window_location_href Sample.cooperative = Some href /\
    lastError reply = None /\
    "t1" = or_else (cookie_value <$> arg reply) "" /\
    ("t1" = "" <-> arg reply = None \/ arg reply = Some {| cookie_value := "" |}) /\
    (("set" = "get" /\ reply = cookies_get Sample.cooperative href "authToken") \/
     ("set" = "set" /\ exists t, Some "t1" = Some t /\ t <> "" /\
        reply = cookies_set Sample.cooperative href "authToken" t)).
Proof.
  apply (tokenCookie_resolved Sample.cooperative "set" (Some "t1") "t1"). reflexivity.
Defined.

End TokenCookieMore.
